(** * ClawNet / ClawToken Python SDK: transport core and sync-wait helper

    A shallow embedding of [clawtoken/http.py], [clawtoken/exceptions.py],
    [clawtoken/node.py] and of [WalletApi.get_balance] from
    [clawnet/wallet.py], together with the properties the specification
    states about them.

    Conventions of the embedding.
    - A Python [str] is a Rocq [string]: the sequence of the bytes of its
      UTF-8 encoding (the form in which [urllib.parse.quote] looks at it).
    - A Python [dict] whose order is observable (query parameters, decoded
      JSON objects) is an association list in insertion order; the header
      dictionary, which is only looked up, is a [gmap].
    - Durations and clock readings are integers: a number of ticks of the
      monotonic clock. Rounding of Python floats is not modelled.
    - Effects (sending a request, sleeping, reading the clock) are threaded
      through an explicit [world]; exceptions are the [Raise] outcome. *)

From Stdlib Require Import ZArith String Ascii List Bool Floats DecimalString.
From stdpp Require Import gmap strings.

Local Open Scope Z_scope.

(** ** Python values *)

(** What [json.loads] produces: [None], [bool], [int], [float], [str],
    [list] and [dict] (insertion ordered). *)
#[warnings="-register-all"]
Inductive json : Type :=
| JNull
| JBool (b : bool)
| JInt (z : Z)
| JFloat (f : PrimFloat.float)
| JStr (s : string)
| JArr (l : list json)
| JObj (d : list (string * json)).

(** Python truthiness, [bool(v)]. *)
Definition py_truthy (v : json) : bool :=
  match v with
  | JNull => false
  | JBool b => b
  | JInt z => negb (z =? 0)
  | JFloat f => negb (PrimFloat.eqb f 0%float)
  | JStr s => negb (String.eqb s "")
  | JArr l => match l with [] => false | _ => true end
  | JObj d => match d with [] => false | _ => true end
  end.

(** [d.get(k)] on an insertion-ordered dictionary. *)
Fixpoint dict_get {V : Type} (d : list (string * V)) (k : string) : option V :=
  match d with
  | [] => None
  | (k', v) :: d' => if String.eqb k' k then Some v else dict_get d' k
  end.

(** [d[k] = v]: the value is replaced in place, a new key goes last. *)
Fixpoint dict_set {V : Type} (d : list (string * V)) (k : string) (v : V) : list (string * V) :=
  match d with
  | [] => [(k, v)]
  | (k', v') :: d' => if String.eqb k' k then (k, v) :: d' else (k', v') :: dict_set d' k v
  end.

(** ** Strings *)

Module Str.

Definition slash : ascii := "/"%char.

(** [s.rstrip("/")]: every trailing slash is removed. *)
Fixpoint rstrip_slash (s : string) : string :=
  match s with
  | EmptyString => EmptyString
  | String c s' =>
      match rstrip_slash s' with
      | EmptyString => if Ascii.eqb c slash then EmptyString else String c EmptyString
      | r => String c r
      end
  end.

(** ["sep".join(l)] *)
Fixpoint join (sep : string) (l : list string) : string :=
  match l with
  | [] => EmptyString
  | [x] => x
  | x :: l' => (x ++ sep ++ join sep l')%string
  end.

(** [str(n)] for an [int]. *)
Definition of_Z (z : Z) : string := NilZero.string_of_int (Z.to_int z).

(** [str(b)] for a [bool]. *)
Definition of_bool (b : bool) : string := if b then "True"%string else "False"%string.

End Str.

(** ** [urllib.parse]: [quote_plus] and [urlencode(..., doseq=True)] *)

Module Urllib.

Definition in_range (lo hi c : ascii) : bool :=
  ((nat_of_ascii lo <=? nat_of_ascii c) && (nat_of_ascii c <=? nat_of_ascii hi))%nat.

(** [_ALWAYS_SAFE]: letters, digits and [_.-~]. *)
Definition always_safe (c : ascii) : bool :=
  in_range "A" "Z" c || in_range "a" "z" c || in_range "0" "9" c
  || Ascii.eqb c "_" || Ascii.eqb c "." || Ascii.eqb c "-" || Ascii.eqb c "~".

Definition hex_digit (n : nat) : ascii :=
  match n with
  | 0 => "0" | 1 => "1" | 2 => "2" | 3 => "3" | 4 => "4" | 5 => "5"
  | 6 => "6" | 7 => "7" | 8 => "8" | 9 => "9" | 10 => "A" | 11 => "B"
  | 12 => "C" | 13 => "D" | 14 => "E" | _ => "F"
  end%nat%char.

(** ['%{:02X}'.format(byte)] *)
Definition percent (c : ascii) : string :=
  let n := nat_of_ascii c in
  String "%" (String (hex_digit (n / 16)) (String (hex_digit (n mod 16)) EmptyString)).

(** One byte under [quote_plus(s, safe='')]. *)
Definition quote_byte (c : ascii) : string :=
  if always_safe c then String c EmptyString
  else if Ascii.eqb c " " then "+"%string
  else percent c.

Fixpoint quote_plus (s : string) : string :=
  match s with
  | EmptyString => EmptyString
  | String c s' => (quote_byte c ++ quote_plus s')%string
  end.

(** [quote(s, safe='')], as the wrappers call it on a path segment: a
    byte that is not always safe is percent-encoded, the space too. *)
Definition quote_segment_byte (c : ascii) : string :=
  if always_safe c then String c EmptyString else percent c.

Fixpoint quote (s : string) : string :=
  match s with
  | EmptyString => EmptyString
  | String c s' => (quote_segment_byte c ++ quote s')%string
  end.

(** Scalars that occur as query values, and their [str()]. *)
Inductive atom : Type :=
| ANone
| ABool (b : bool)
| AInt (z : Z)
| AStr (s : string).

Definition str (a : atom) : string :=
  match a with
  | ANone => "None"%string
  | ABool b => Str.of_bool b
  | AInt z => Str.of_Z z
  | AStr s => s
  end.

(** A query value: a scalar, or a sequence of scalars (which has a
    [len()], so that [doseq=True] repeats the key). *)
Inductive qvalue : Type :=
| Scalar (a : atom)
| Seq (l : list atom).

Definition is_None (v : qvalue) : bool :=
  match v with Scalar ANone => true | _ => false end.

Definition pair_str (k : string) (a : atom) : string :=
  (quote_plus k ++ "=" ++ quote_plus (str a))%string.

(** The [k=v] items one dictionary entry contributes. *)
Definition items_of (kv : string * qvalue) : list string :=
  match kv with
  | (k, Scalar a) => [pair_str k a]
  | (k, Seq l) => map (pair_str k) l
  end.

Definition urlencode (query : list (string * qvalue)) : string :=
  Str.join "&" (concat (map items_of query)).

End Urllib.

(** ** [clawtoken/http.py]: URL construction *)

Definition DEFAULT_BASE_URL : string := "http://127.0.0.1:9528".
Definition DEFAULT_TIMEOUT : Z := 30.

Definition params_t : Type := list (string * Urllib.qvalue).

(** [{k: v for k, v in params.items() if v is not None}] *)
Definition filter_not_None (params : params_t) : params_t :=
  List.filter (fun kv => negb (Urllib.is_None (snd kv))) params.

Definition _build_url (base path : string) (params : option params_t) : string :=
  let url := (Str.rstrip_slash base ++ path)%string in
  match params with
  | Some ((_ :: _) as p) =>
      match filter_not_None p with
      | [] => url
      | filtered => (url ++ "?" ++ Urllib.urlencode filtered)%string
      end
  | _ => url
  end.

(** ** [clawtoken/exceptions.py] and the other exceptions that can escape *)

Inductive net_failure : Type :=
| ConnectError
| ConnectTimeout
| ReadTimeout.

Inductive exn : Type :=
| ClawTokenError (message : json) (status : Z) (code : json) (details : json)
    (** [ClawTokenError(message, status=..., code=..., details=...)];
        [JNull] stands for [None] *)
| JSONDecodeError
| AttributeError
| ValueError
| TransportError (f : net_failure)   (** [httpx.TransportError] *)
| TimeoutError (timeout : Z).        (** [TimeoutError(f"Node did not sync within {timeout}s")] *)

(** How a call ends: it returns, it raises, or the bound on the number of
    loop iterations that the embedding imposes was reached. *)
Inductive outcome (A : Type) : Type :=
| Return (a : A)
| Raise (e : exn)
| OutOfFuel.
Arguments Return {A} a.
Arguments Raise {A} e.
Arguments OutOfFuel {A}.

Definition obind {A B : Type} (o : outcome A) (f : A -> outcome B) : outcome B :=
  match o with
  | Return a => f a
  | Raise e => Raise e
  | OutOfFuel => OutOfFuel
  end.

(** ** [httpx]: requests, responses, and the world they happen in *)

Inductive method : Type := GET | POST | PUT | DELETE.

Record request : Type := {
  req_method : method;
  req_url : string;
  req_headers : gmap string string;
  req_json : option json;          (** the [json=] argument *)
}.

Record Response : Type := {
  status_code : Z;
  text : string;
}.

Inductive reply : Type :=
| Reply (r : Response)
| NoReply (f : net_failure).

(** The environment of the SDK: the JSON decoder behind [Response.json()]
    ([None] when it raises), what the [n]-th request sent is answered with,
    and how many clock ticks that round trip takes. *)
Class Env : Type := {
  json_loads : string -> option json;
  node : nat -> request -> reply;
  latency : nat -> N;
}.

Inductive event : Type :=
| Sent (rq : request)
| Slept (d : Z).

Record world : Type := {
  clock : Z;                      (** [time.monotonic()] *)
  trace : list event;             (** what has happened so far, oldest first *)
}.

Definition is_Sent (e : event) : bool :=
  match e with Sent _ => true | Slept _ => false end.

Definition sent_count (w : world) : nat := length (List.filter is_Sent (trace w)).
Definition slept_count (w : world) : nat := length (List.filter (fun e => negb (is_Sent e)) (trace w)).

(** Blocking code: a state and exception monad over the world. *)
Definition M (A : Type) : Type := world -> outcome A * world.

Definition ret {A : Type} (a : A) : M A := fun w => (Return a, w).
Definition raise {A : Type} (e : exn) : M A := fun w => (Raise e, w).
Definition out_of_fuel {A : Type} : M A := fun w => (OutOfFuel, w).
Definition lift {A : Type} (o : outcome A) : M A := fun w => (o, w).
Definition bind {A B : Type} (m : M A) (f : A -> M B) : M B :=
  fun w =>
    match m w with
    | (Return a, w') => f a w'
    | (Raise e, w') => (Raise e, w')
    | (OutOfFuel, w') => (OutOfFuel, w')
    end.

Declare Scope py_scope.
Delimit Scope py_scope with py.
Notation "x <- m ;; k" := (bind m (fun x => k))
  (at level 100, m at next level, right associativity) : py_scope.
Notation "m ;;; k" := (bind m (fun _ => k))
  (at level 100, right associativity) : py_scope.
Notation "x <~ o ;; k" := (obind o (fun x => k))
  (at level 100, o at next level, right associativity) : py_scope.

Module Httpx.

(** [Response.is_success]: [200 <= status_code <= 299]. *)
Definition is_success (r : Response) : bool :=
  (200 <=? status_code r) && (status_code r <=? 299).

(** [httpx.Client(timeout=..., headers=...)] and [httpx.AsyncClient]. *)
Record Client : Type := {
  timeout : Z;
  headers : gmap string string;
}.

Definition build_request (c : Client) (m : method) (url : string) (body : option json) : request :=
  {| req_method := m; req_url := url; req_headers := headers c; req_json := body |}.

(** One round trip: the request is recorded, the clock advances by the
    latency, and the reply is a response or a transport failure. *)
Definition send `{Env} (rq : request) : M Response :=
  fun w =>
    let n := sent_count w in
    let w' := {| clock := clock w + Z.of_N (latency n); trace := trace w ++ [Sent rq] |} in
    match node n rq with
    | Reply r => (Return r, w')
    | NoReply f => (Raise (TransportError f), w')
    end.

(** [Client.get(url)], [Client.post(url, json=body)], ... *)
Definition request `{Env} (c : Client) (m : method) (url : string) (body : option json) : M Response :=
  send (build_request c m url body).

(** [Response.json()] *)
Definition json `{Env} (r : Response) : outcome json :=
  match json_loads (text r) with
  | Some v => Return v
  | None => Raise JSONDecodeError
  end.

End Httpx.

(** [time.monotonic()] *)
Definition monotonic : M Z := fun w => (Return (clock w), w).

(** [time.sleep(d)]: a negative [d] raises [ValueError]. *)
Definition time_sleep (d : Z) : M unit :=
  fun w =>
    if d <? 0 then (Raise ValueError, w)
    else (Return tt, {| clock := clock w + d; trace := trace w ++ [Slept d] |}).

(** [await asyncio.sleep(d)]: for [d <= 0] control is yielded once and no
    time passes. *)
Definition asyncio_sleep (d : Z) : M unit :=
  fun w =>
    if d <=? 0 then (Return tt, {| clock := clock w; trace := trace w ++ [Slept d] |})
    else (Return tt, {| clock := clock w + d; trace := trace w ++ [Slept d] |}).

(** Non-blocking code: a coroutine is a tree of suspension points; the
    continuation of each receives what the event loop resumes it with. *)
Inductive coro (A : Type) : Type :=
| Finished (o : outcome A)
| AwaitRequest (rq : request) (k : Response -> coro A)
| AwaitSleep (d : Z) (k : unit -> coro A)
| ReadClock (k : Z -> coro A).
Arguments Finished {A} o.
Arguments AwaitRequest {A} rq k.
Arguments AwaitSleep {A} d k.
Arguments ReadClock {A} k.

Fixpoint abind {A B : Type} (c : coro A) (f : A -> coro B) : coro B :=
  match c with
  | Finished (Return a) => f a
  | Finished (Raise e) => Finished (Raise e)
  | Finished OutOfFuel => Finished OutOfFuel
  | AwaitRequest rq k => AwaitRequest rq (fun r => abind (k r) f)
  | AwaitSleep d k => AwaitSleep d (fun u => abind (k u) f)
  | ReadClock k => ReadClock (fun t => abind (k t) f)
  end.

Definition aret {A : Type} (a : A) : coro A := Finished (Return a).
Definition araise {A : Type} (e : exn) : coro A := Finished (Raise e).
Definition alift {A : Type} (o : outcome A) : coro A := Finished o.
Definition await_sleep (d : Z) : coro unit := AwaitSleep d aret.
Definition amonotonic : coro Z := ReadClock aret.

(** [await client.get(url)], ... on an [httpx.AsyncClient]. *)
Definition await_request (c : Httpx.Client) (m : method) (url : string) (body : option json)
  : coro Response :=
  AwaitRequest (Httpx.build_request c m url body) aret.

Notation "x <-- m ;; k" := (abind m (fun x => k))
  (at level 100, m at next level, right associativity) : py_scope.
Notation "m ;;;; k" := (abind m (fun _ => k))
  (at level 100, right associativity) : py_scope.

(** The event loop drives one coroutine to completion. An exception raised
    at a suspension point propagates: no [await] of the SDK stands inside a
    [try]. *)
Fixpoint run_until_complete `{Env} {A : Type} (c : coro A) : M A :=
  match c with
  | Finished o => lift o
  | AwaitRequest rq k => bind (Httpx.send rq) (fun r => run_until_complete (k r))
  | AwaitSleep d k => bind (asyncio_sleep d) (fun u => run_until_complete (k u))
  | ReadClock k => bind monotonic (fun t => run_until_complete (k t))
  end.

Local Open Scope py_scope.

(** ** [clawtoken/http.py]: error mapping *)

(** [isinstance(v, dict)] *)
Definition is_dict (v : json) : bool :=
  match v with JObj _ => true | _ => false end.

(** [v.get(k, default)]; a value that is not a [dict] has no [get]. *)
Definition py_get (v : json) (k : string) (default : json) : outcome json :=
  match v with
  | JObj d => Return (match dict_get d k with Some x => x | None => default end)
  | _ => Raise AttributeError
  end.

(** The body of the [try] of [_handle_error]. *)
Definition error_fields `{Env} (resp : Response) : outcome (json * json) :=
  body <~ Httpx.json resp ;;
  msg <~ (if is_dict body
          then (e <~ py_get body "error" (JObj []) ;; py_get e "message" (JStr (text resp)))
          else Return (JStr (text resp))) ;;
  code <~ (if is_dict body
           then (e <~ py_get body "error" (JObj []) ;; py_get e "code" JNull)
           else Return JNull) ;;
  Return (msg, code).

Definition _handle_error `{Env} (resp : Response) : outcome unit :=
  if Httpx.is_success resp then Return tt
  else
    let '(msg, code) :=
      match error_fields resp with
      | Return mc => mc
      | _ => (JStr (text resp), JNull)         (* except Exception *)
      end in
    Raise (ClawTokenError msg (status_code resp) code JNull).

(** ** [clawtoken/http.py]: the synchronous client *)

Module HttpClient.

Record t : Type := {
  base_url : string;
  _client : Httpx.Client;
}.

Definition __init__ (base_url : string) (timeout : Z)
    (api_key : option string) (headers : option (gmap string string)) : t :=
  let _headers : gmap string string := {[ "Content-Type"%string := "application/json"%string ]} in
  let _headers :=
    match api_key with
    | Some key => if String.eqb key "" then _headers
                  else <[ "Authorization"%string := ("Bearer " ++ key)%string ]> _headers
    | None => _headers
    end in
  let _headers :=
    match headers with
    | Some h => if decide (h = ∅) then _headers else h ∪ _headers    (* _headers.update(headers) *)
    | None => _headers
    end in
  {| base_url := Str.rstrip_slash base_url;
     _client := {| Httpx.timeout := timeout; Httpx.headers := _headers |} |}.

Definition get `{Env} (self : t) (path : string) (params : option params_t) : M json :=
  let url := _build_url (base_url self) path params in
  resp <- Httpx.request (_client self) GET url None ;;
  lift (_handle_error resp) ;;;
  lift (Httpx.json resp).

Definition post `{Env} (self : t) (path : string) (body : option json) : M json :=
  let url := _build_url (base_url self) path None in
  resp <- Httpx.request (_client self) POST url body ;;
  lift (_handle_error resp) ;;;
  lift (Httpx.json resp).

Definition put `{Env} (self : t) (path : string) (body : option json) : M json :=
  let url := _build_url (base_url self) path None in
  resp <- Httpx.request (_client self) PUT url body ;;
  lift (_handle_error resp) ;;;
  lift (Httpx.json resp).

Definition delete `{Env} (self : t) (path : string) (params : option params_t) : M json :=
  let url := _build_url (base_url self) path params in
  resp <- Httpx.request (_client self) DELETE url None ;;
  lift (_handle_error resp) ;;;
  lift (Httpx.json resp).

End HttpClient.

(** ** [clawtoken/http.py]: the asynchronous client *)

Module AsyncHttpClient.

Record t : Type := {
  base_url : string;
  _client : Httpx.Client;
}.

Definition __init__ (base_url : string) (timeout : Z)
    (api_key : option string) (headers : option (gmap string string)) : t :=
  let _headers : gmap string string := {[ "Content-Type"%string := "application/json"%string ]} in
  let _headers :=
    match api_key with
    | Some key => if String.eqb key "" then _headers
                  else <[ "Authorization"%string := ("Bearer " ++ key)%string ]> _headers
    | None => _headers
    end in
  let _headers :=
    match headers with
    | Some h => if decide (h = ∅) then _headers else h ∪ _headers
    | None => _headers
    end in
  {| base_url := Str.rstrip_slash base_url;
     _client := {| Httpx.timeout := timeout; Httpx.headers := _headers |} |}.

Definition get `{Env} (self : t) (path : string) (params : option params_t) : coro json :=
  let url := _build_url (base_url self) path params in
  resp <-- await_request (_client self) GET url None ;;
  alift (_handle_error resp) ;;;;
  alift (Httpx.json resp).

Definition post `{Env} (self : t) (path : string) (body : option json) : coro json :=
  let url := _build_url (base_url self) path None in
  resp <-- await_request (_client self) POST url body ;;
  alift (_handle_error resp) ;;;;
  alift (Httpx.json resp).

Definition put `{Env} (self : t) (path : string) (body : option json) : coro json :=
  let url := _build_url (base_url self) path None in
  resp <-- await_request (_client self) PUT url body ;;
  alift (_handle_error resp) ;;;;
  alift (Httpx.json resp).

Definition delete `{Env} (self : t) (path : string) (params : option params_t) : coro json :=
  let url := _build_url (base_url self) path params in
  resp <-- await_request (_client self) DELETE url None ;;
  alift (_handle_error resp) ;;;;
  alift (Httpx.json resp).

End AsyncHttpClient.

(** ** [clawtoken/node.py] *)

Module NodeApi.

Record t : Type := { _http : HttpClient.t }.

Definition get_status `{Env} (self : t) : M json :=
  HttpClient.get (_http self) "/api/node/status" None.

(** The [while True] loop, cut after [fuel] iterations. *)
Fixpoint poll `{Env} (fuel : nat) (self : t) (interval timeout deadline : Z) : M json :=
  match fuel with
  | O => out_of_fuel
  | S fuel' =>
      status <- get_status self ;;
      synced <- lift (py_get status "synced" JNull) ;;
      if py_truthy synced then ret status
      else
        now <- monotonic ;;
        if deadline <=? now then raise (TimeoutError timeout)
        else time_sleep interval ;;; poll fuel' self interval timeout deadline
  end.

Definition wait_for_sync `{Env} (fuel : nat) (self : t) (interval timeout : Z) : M json :=
  now <- monotonic ;;
  let deadline := now + timeout in
  poll fuel self interval timeout deadline.

(** The [params] dictionary of [get_peers]. *)
Definition peers_params (limit offset : option Z) : params_t :=
  let params : params_t := [] in
  let params :=
    match limit with
    | Some l => dict_set params "limit" (Urllib.Scalar (Urllib.AInt l))
    | None => params
    end in
  let params :=
    match offset with
    | Some o => dict_set params "offset" (Urllib.Scalar (Urllib.AInt o))
    | None => params
    end in
  params.

Definition get_peers `{Env} (self : t) (limit offset : option Z) : M json :=
  let params := peers_params limit offset in
  HttpClient.get (_http self) "/api/node/peers"
    (match params with [] => None | _ => Some params end).   (* params or None *)

Definition get_config `{Env} (self : t) : M json :=
  HttpClient.get (_http self) "/api/node/config" None.

End NodeApi.

Module AsyncNodeApi.

Record t : Type := { _http : AsyncHttpClient.t }.

Definition get_status `{Env} (self : t) : coro json :=
  AsyncHttpClient.get (_http self) "/api/node/status" None.

Fixpoint poll `{Env} (fuel : nat) (self : t) (interval timeout deadline : Z) : coro json :=
  match fuel with
  | O => Finished OutOfFuel
  | S fuel' =>
      status <-- get_status self ;;
      synced <-- alift (py_get status "synced" JNull) ;;
      if py_truthy synced then aret status
      else
        now <-- amonotonic ;;
        if deadline <=? now then araise (TimeoutError timeout)
        else await_sleep interval ;;;; poll fuel' self interval timeout deadline
  end.

Definition wait_for_sync `{Env} (fuel : nat) (self : t) (interval timeout : Z) : coro json :=
  now <-- amonotonic ;;
  let deadline := now + timeout in
  poll fuel self interval timeout deadline.

End AsyncNodeApi.

(** ** [clawnet/wallet.py]: [WalletApi.get_balance] *)

Module WalletApi.

(** [clawnet/http.py] is not among the sources: the [get] of the client
    a [WalletApi] holds is a field here. *)
Record t : Type := { _http_get : string -> option params_t -> M json }.

(** Truthiness of a [str | None]. *)
Definition str_truthy (s : option string) : bool :=
  match s with
  | Some s => negb (String.eqb s "")
  | None => false
  end.

Definition to_qvalue (s : option string) : Urllib.qvalue :=
  match s with
  | Some s => Urllib.Scalar (Urllib.AStr s)
  | None => Urllib.Scalar Urllib.ANone
  end.

Definition balance_params (did address : option string) : params_t :=
  let params : params_t := [] in
  let params := if str_truthy did then dict_set params "did" (to_qvalue did) else params in
  let params := if str_truthy address then dict_set params "address" (to_qvalue address) else params in
  params.

Definition get_balance (self : t) (did address : option string) : M json :=
  let params := balance_params did address in
  _http_get self "/api/wallet/balance" (match params with [] => None | _ => Some params end).

(** The [params] dictionary of [get_history]: [did] and [type] are kept
    when truthy, [limit] and [offset] when not [None]. *)
Definition history_params (did : option string) (limit offset : option Z)
    (type : option string) : params_t :=
  let params : params_t := [] in
  let params := if str_truthy did then dict_set params "did" (to_qvalue did) else params in
  let params :=
    match limit with
    | Some l => dict_set params "limit" (Urllib.Scalar (Urllib.AInt l))
    | None => params
    end in
  let params :=
    match offset with
    | Some o => dict_set params "offset" (Urllib.Scalar (Urllib.AInt o))
    | None => params
    end in
  let params := if str_truthy type then dict_set params "type" (to_qvalue type) else params in
  params.

Definition get_history (self : t) (did : option string) (limit offset : option Z)
    (type : option string) : M json :=
  let params := history_params did limit offset type in
  _http_get self "/api/wallet/history" (match params with [] => None | _ => Some params end).

End WalletApi.

(** ** [clawtoken/identity.py] *)

Module IdentityApi.

Record t : Type := { _http : HttpClient.t }.

Definition get `{Env} (self : t) (did : string) : M json :=
  HttpClient.get (_http self) ("/api/identity/" ++ Urllib.quote did) None.

Definition resolve `{Env} (self : t) (did : string) (source : option string) : M json :=
  let params : option params_t :=
    if WalletApi.str_truthy source
    then Some [("source"%string, WalletApi.to_qvalue source)]
    else None in
  HttpClient.get (_http self) ("/api/identity/" ++ Urllib.quote did) params.

Definition list_capabilities `{Env} (self : t) (did : string) (limit offset : option Z) : M json :=
  let params : params_t := [("did"%string, Urllib.Scalar (Urllib.AStr did))] in
  let params :=
    match limit with
    | Some l => dict_set params "limit" (Urllib.Scalar (Urllib.AInt l))
    | None => params
    end in
  let params :=
    match offset with
    | Some o => dict_set params "offset" (Urllib.Scalar (Urllib.AInt o))
    | None => params
    end in
  HttpClient.get (_http self) "/api/identity/capabilities" (Some params).

(** [**kwargs] is the dictionary of the keyword arguments. *)
Definition register_capability `{Env} (self : t) (kwargs : list (string * json)) : M json :=
  HttpClient.post (_http self) "/api/identity/capabilities" (Some (JObj kwargs)).

End IdentityApi.

(** ** [clawtoken/contracts.py]: the wrappers with identifiers in the path *)

Module ContractsApi.

Record t : Type := { _http : HttpClient.t }.

Definition get `{Env} (self : t) (contract_id : string) : M json :=
  HttpClient.get (_http self) ("/api/contracts/" ++ Urllib.quote contract_id) None.

Definition sign `{Env} (self : t) (contract_id : string) (kwargs : list (string * json)) : M json :=
  HttpClient.post (_http self)
    ("/api/contracts/" ++ Urllib.quote contract_id ++ "/sign") (Some (JObj kwargs)).

Definition submit_milestone `{Env} (self : t) (contract_id milestone_id : string)
    (kwargs : list (string * json)) : M json :=
  HttpClient.post (_http self)
    ("/api/contracts/" ++ Urllib.quote contract_id
       ++ "/milestones/" ++ Urllib.quote milestone_id ++ "/submit")
    (Some (JObj kwargs)).

End ContractsApi.

(** ** [clawnet/markets.py]: [InfoMarketApi.purchase] and [InfoMarketApi.remove] *)

Module InfoMarketApi.

(** [clawnet/http.py] is not among the sources: the [post] and [delete] of
    the client an [InfoMarketApi] holds are fields here. *)
Record t : Type := {
  _http_post : string -> option json -> M json;
  _http_delete : string -> option params_t -> M json;
}.

Definition purchase (self : t) (listing_id : string) (kwargs : list (string * json)) : M json :=
  _http_post self ("/api/markets/info/" ++ Urllib.quote listing_id ++ "/purchase")
    (Some (JObj kwargs)).

Definition remove (self : t) (listing_id : string) (kwargs : list (string * json)) : M json :=
  _http_delete self ("/api/markets/info/" ++ Urllib.quote listing_id) None.

End InfoMarketApi.

(** ** A JSON decoder for the examples

    Every property below is proved for an arbitrary decoder [json_loads].
    To evaluate the SDK on concrete response bodies, [Json.loads] decodes
    the fragment of JSON that the bodies of the test-suite are written in:
    [null], [true], [false], integers, strings without escapes, arrays and
    objects. A body outside the fragment is not decoded. *)

Module Json.

Definition dquote : ascii := ascii_of_nat 34.

(** Bodies are written with ['] where the wire has the double quote. *)
Fixpoint text (s : string) : string :=
  match s with
  | EmptyString => EmptyString
  | String c s' => String (if Ascii.eqb c "'" then dquote else c) (text s')
  end.

Definition is_ws (c : ascii) : bool :=
  Ascii.eqb c " " || Ascii.eqb c (ascii_of_nat 9)
  || Ascii.eqb c (ascii_of_nat 10) || Ascii.eqb c (ascii_of_nat 13).

Definition is_digit (c : ascii) : bool := Urllib.in_range "0" "9" c.

Fixpoint skip_ws (s : list ascii) : list ascii :=
  match s with
  | c :: s' => if is_ws c then skip_ws s' else s
  | [] => []
  end.

Fixpoint strip_prefix (p : list ascii) (s : list ascii) : option (list ascii) :=
  match p, s with
  | [], _ => Some s
  | a :: p', b :: s' => if Ascii.eqb a b then strip_prefix p' s' else None
  | _ :: _, [] => None
  end.

(** The characters of a string up to its closing quote. *)
Fixpoint string_body (s : list ascii) (acc : list ascii) : option (string * list ascii) :=
  match s with
  | [] => None
  | c :: s' =>
      if Ascii.eqb c dquote then Some (string_of_list_ascii (rev acc), s')
      else if Ascii.eqb c "\" then None
      else if (nat_of_ascii c <? 32)%nat then None
      else string_body s' (c :: acc)
  end.

Fixpoint digits (s : list ascii) (acc : Z) : Z * list ascii :=
  match s with
  | c :: s' =>
      if is_digit c then digits s' (10 * acc + (Z.of_nat (nat_of_ascii c) - 48))
      else (acc, s)
  | [] => (acc, [])
  end.

(** An integer: no leading zero, no fraction, no exponent. *)
Definition unsigned (s : list ascii) : option (Z * list ascii) :=
  match s with
  | c :: s' =>
      if negb (is_digit c) then None
      else
        let '(n, r) := if Ascii.eqb c "0" then (0, s') else digits s 0 in
        match r with
        | d :: _ =>
            if is_digit d || Ascii.eqb d "." || Ascii.eqb d "e" || Ascii.eqb d "E"
            then None else Some (n, r)
        | [] => Some (n, r)
        end
  | [] => None
  end.

Definition literal (name : string) (v : json) (s : list ascii) : option (json * list ascii) :=
  match strip_prefix (list_ascii_of_string name) s with
  | Some r => Some (v, r)
  | None => None
  end.

Fixpoint value (fuel : nat) (s : list ascii) : option (json * list ascii) :=
  match fuel with
  | O => None
  | S fuel' =>
      match skip_ws s with
      | [] => None
      | c :: r =>
          if Ascii.eqb c dquote then
            match string_body r [] with
            | Some (str, r') => Some (JStr str, r')
            | None => None
            end
          else if Ascii.eqb c "[" then
            match skip_ws r with
            | d :: r' => if Ascii.eqb d "]" then Some (JArr [], r') else elements fuel' r []
            | [] => None
            end
          else if Ascii.eqb c "{" then
            match skip_ws r with
            | d :: r' => if Ascii.eqb d "}" then Some (JObj [], r') else members fuel' r []
            | [] => None
            end
          else if Ascii.eqb c "-" then
            match unsigned r with
            | Some (n, r') => Some (JInt (- n), r')
            | None => None
            end
          else if is_digit c then
            match unsigned (c :: r) with
            | Some (n, r') => Some (JInt n, r')
            | None => None
            end
          else if Ascii.eqb c "n" then literal "null" JNull (c :: r)
          else if Ascii.eqb c "t" then literal "true" (JBool true) (c :: r)
          else if Ascii.eqb c "f" then literal "false" (JBool false) (c :: r)
          else None
      end
  end
with elements (fuel : nat) (s : list ascii) (acc : list json) : option (json * list ascii) :=
  match fuel with
  | O => None
  | S fuel' =>
      match value fuel' s with
      | Some (v, r) =>
          match skip_ws r with
          | c :: r' =>
              if Ascii.eqb c "," then elements fuel' r' (acc ++ [v])
              else if Ascii.eqb c "]" then Some (JArr (acc ++ [v]), r')
              else None
          | [] => None
          end
      | None => None
      end
  end
with members (fuel : nat) (s : list ascii) (acc : list (string * json)) : option (json * list ascii) :=
  match fuel with
  | O => None
  | S fuel' =>
      match skip_ws s with
      | c :: r =>
          if negb (Ascii.eqb c dquote) then None
          else
            match string_body r [] with
            | Some (k, r1) =>
                match skip_ws r1 with
                | c1 :: r2 =>
                    if negb (Ascii.eqb c1 ":") then None
                    else
                      match value fuel' r2 with
                      | Some (v, r3) =>
                          match skip_ws r3 with
                          | c3 :: r4 =>
                              if Ascii.eqb c3 "," then members fuel' r4 (dict_set acc k v)
                              else if Ascii.eqb c3 "}" then Some (JObj (dict_set acc k v), r4)
                              else None
                          | [] => None
                          end
                      | None => None
                      end
                | [] => None
                end
            | None => None
            end
      | [] => None
      end
  end.

Definition loads (s : string) : option json :=
  let l := list_ascii_of_string s in
  match value (2 * length l + 2) l with
  | Some (v, r) => match skip_ws r with [] => Some v | _ => None end
  | None => None
  end.

End Json.

(** ** Concrete environments for the examples *)

Module Demo.

(** A node that answers the [n]-th request with [answers n]. *)
Definition env_of (answers : nat -> reply) (lat : nat -> N) : Env :=
  {| json_loads := Json.loads; node := fun n _ => answers n; latency := lat |}.

Definition respond (status : Z) (body : string) : reply :=
  Reply {| status_code := status; text := Json.text body |}.

Definition w0 : world := {| clock := 1000; trace := [] |}.

Definition client : HttpClient.t :=
  HttpClient.__init__ DEFAULT_BASE_URL DEFAULT_TIMEOUT None None.

Definition aclient : AsyncHttpClient.t :=
  AsyncHttpClient.__init__ DEFAULT_BASE_URL DEFAULT_TIMEOUT None None.

Definition node_api : NodeApi.t := {| NodeApi._http := client |}.
Definition anode_api : AsyncNodeApi.t := {| AsyncNodeApi._http := aclient |}.

(** A node that gives every request the same answer, at once. *)
Definition always (status : Z) (body : string) : Env :=
  env_of (fun _ => respond status body) (fun _ => 0%N).

Definition not_found : Env :=
  always 404 "{'error': {'code': 'NOT_FOUND', 'message': 'Resource not found'}}".

Definition plain_failure : Env := always 500 "Internal Server Error".

Definition code_without_message : Env := always 500 "{'error': {'code': 'X'}}".

Definition created : Env := always 201 "{'contractId': 'ct-1', 'txHash': 'tx-1'}".

Definition empty_success : Env := always 204 "".

Definition synced_node : Env :=
  always 200 "{'did': 'did:claw:z6MkNode', 'synced': true, 'blockHeight': 100}".

Definition unsynced_node : Env := always 200 "{'synced': false, 'blockHeight': 7}".

Definition message_without_code : Env := always 301 "{'error': {'message': 'moved'}}".

Definition list_status : Env := always 200 "[1, 2]".

(** A node that reports synced from its third answer on, and answers at
    once. *)
Definition syncing_at_once : Env :=
  env_of (fun n => if (n <? 2)%nat
                   then respond 200 "{'synced': false}"
                   else respond 200 "{'synced': true}")
         (fun _ => 0%N).

Definition identity_api : IdentityApi.t := {| IdentityApi._http := client |}.

(** A node that reports synced from its third answer on; each round trip
    takes one tick. *)
Definition syncing_node : Env :=
  env_of (fun n => if (n <? 2)%nat
                   then respond 200 "{'synced': false}"
                   else respond 200 "{'synced': true}")
         (fun _ => 1%N).

End Demo.

(** ** The four transport operations, as one call

    [HttpClient_call] and [AsyncHttpClient_call] dispatch to the methods of
    the two clients, so that a property of "each of get/post/put/delete" is
    one statement. [call_request] is the request a call issues. *)

Inductive call : Type :=
| Get (path : string) (params : option params_t)
| Post (path : string) (body : option json)
| Put (path : string) (body : option json)
| Delete (path : string) (params : option params_t).

Definition HttpClient_call `{Env} (self : HttpClient.t) (c : call) : M json :=
  match c with
  | Get path params => HttpClient.get self path params
  | Post path body => HttpClient.post self path body
  | Put path body => HttpClient.put self path body
  | Delete path params => HttpClient.delete self path params
  end.

Definition AsyncHttpClient_call `{Env} (self : AsyncHttpClient.t) (c : call) : coro json :=
  match c with
  | Get path params => AsyncHttpClient.get self path params
  | Post path body => AsyncHttpClient.post self path body
  | Put path body => AsyncHttpClient.put self path body
  | Delete path params => AsyncHttpClient.delete self path params
  end.

Definition call_request (base : string) (client : Httpx.Client) (c : call) : request :=
  match c with
  | Get path params => Httpx.build_request client GET (_build_url base path params) None
  | Post path body => Httpx.build_request client POST (_build_url base path None) body
  | Put path body => Httpx.build_request client PUT (_build_url base path None) body
  | Delete path params => Httpx.build_request client DELETE (_build_url base path params) None
  end.

(** The world after one round trip. *)
Definition after_send `{Env} (w : world) (rq : request) : world :=
  {| clock := clock w + Z.of_N (latency (sent_count w)); trace := trace w ++ [Sent rq] |}.

(** What a call makes of the response it received. *)
Definition response_result `{Env} (r : Response) : outcome json :=
  _ <~ _handle_error r ;; Httpx.json r.

(** The body decodes to an object whose [error] is an object that holds a
    [message]: the structure the error mapping looks for. *)
Definition has_error_message `{Env} (r : Response) : bool :=
  match json_loads (text r) with
  | Some (JObj d) =>
      match dict_get d "error" with
      | Some (JObj e) => match dict_get e "message" with Some _ => true | None => false end
      | _ => false
      end
  | _ => false
  end.

(** The [code] that the [error] object of the body holds, if any. *)
Definition declared_code `{Env} (r : Response) : option json :=
  match json_loads (text r) with
  | Some (JObj d) =>
      match dict_get d "error" with
      | Some (JObj e) => dict_get e "code"
      | _ => None
      end
  | _ => None
  end.

(** The characters a percent-encoded component is made of: the unreserved
    characters, the percent sign and the plus sign. *)
Definition component_char (c : ascii) : bool :=
  Urllib.always_safe c || Ascii.eqb c "%" || Ascii.eqb c "+".

(** The suffix a filtered mapping contributes to the URL. *)
Definition query_suffix (filtered : params_t) : string :=
  match filtered with
  | [] => ""%string
  | _ => ("?" ++ Str.join "&" (concat (map Urllib.items_of filtered)))%string
  end.

(** [bool(status.get("synced"))], when [status] has a [get]. *)
Definition synced_flag (status : json) : outcome bool :=
  s <~ py_get status "synced" JNull ;; Return (py_truthy s).

(** The request behind [get_status]. *)
Definition status_request (base : string) (client : Httpx.Client) : request :=
  call_request base client (Get "/api/node/status" None).

(** A response that carries a status which does not report synced. *)
Definition unsynced `{Env} (r : Response) : bool :=
  Httpx.is_success r
  && match json_loads (text r) with
     | Some status =>
         match synced_flag status with
         | Return false => true
         | _ => false
         end
     | None => false
     end.

(** The status endpoint never reports synced, and answers at once. *)
Definition never_synced `{Env} (rq : request) : Prop :=
  forall n, exists r, node n rq = Reply r /\ unsynced r = true.

Definition instantaneous `{Env} : Prop := forall n, latency n = 0%N.

(** The world after a sleep of [d]. *)
Definition after_sleep (w : world) (d : Z) : world :=
  {| clock := clock w + d; trace := trace w ++ [Slept d] |}.

(** The blocking client that holds the configuration of an asynchronous
    one. *)
Definition blocking_of (aself : AsyncNodeApi.t) : NodeApi.t :=
  {| NodeApi._http :=
       {| HttpClient.base_url := AsyncHttpClient.base_url (AsyncNodeApi._http aself);
          HttpClient._client := AsyncHttpClient._client (AsyncNodeApi._http aself) |} |}.

(** The [message] that the [error] object of the body holds, if any. *)
Definition declared_message `{Env} (r : Response) : option json :=
  match json_loads (text r) with
  | Some (JObj d) =>
      match dict_get d "error" with
      | Some (JObj e) => dict_get e "message"
      | _ => None
      end
  | _ => None
  end.

(** The ways a transport operation can end. *)
Definition transport_outcome (o : outcome json) : bool :=
  match o with
  | Return _ => true
  | Raise (ClawTokenError _ _ _ JNull) => true
  | Raise JSONDecodeError => true
  | Raise (TransportError _) => true
  | _ => false
  end.

(** ** Decoding, as the receiving side does it

    [urllib.parse.unquote] and [unquote_plus]: the inverses of [quote] and
    [quote_plus], against which the encodings are checked to lose
    nothing. *)

Definition hex_value (c : ascii) : option nat :=
  let n := nat_of_ascii c in
  if Urllib.in_range "0" "9" c then Some (n - 48)%nat
  else if Urllib.in_range "A" "F" c then Some (n - 55)%nat
  else if Urllib.in_range "a" "f" c then Some (n - 87)%nat
  else None.

(** A [%XX] with two hex digits is one byte; any other character stands
    for itself. *)
Fixpoint unquote (s : string) : string :=
  match s with
  | EmptyString => EmptyString
  | String c s1 =>
      if Ascii.eqb c "%" then
        match s1 with
        | String h1 (String h2 s3) =>
            match hex_value h1, hex_value h2 with
            | Some a, Some b => String (ascii_of_nat (16 * a + b)) (unquote s3)
            | _, _ => String c (unquote s1)
            end
        | _ => String c (unquote s1)
        end
      else String c (unquote s1)
  end.

(** [s.replace('+', ' ')] *)
Fixpoint plus_to_space (s : string) : string :=
  match s with
  | EmptyString => EmptyString
  | String c s' => String (if Ascii.eqb c "+" then " "%char else c) (plus_to_space s')
  end.

Definition unquote_plus (s : string) : string := unquote (plus_to_space s).

(** How often a character occurs in a string. *)
Fixpoint count_char (x : ascii) (s : string) : nat :=
  match s with
  | EmptyString => O
  | String c s' => ((if Ascii.eqb c x then 1 else 0) + count_char x s')%nat
  end.

(** The characters of a percent-encoded path segment: the unreserved
    characters and the percent sign. *)
Definition segment_char (c : ascii) : bool :=
  Urllib.always_safe c || Ascii.eqb c "%".

(** ** The query string a wrapper is expected to produce *)

(** A [str | None] argument that a wrapper tests for truthiness: the
    empty string counts as absent. *)
Definition truthy_str (s : option string) : option string :=
  match s with
  | Some x => if String.eqb x "" then None else Some x
  | None => None
  end.

(** The item [k=v] of an argument that is present. *)
Definition opt_item (k : string) (v : option string) : list string :=
  match v with
  | Some x => [(k ++ "=" ++ x)%string]
  | None => []
  end.

(** [?item&item...], or nothing when there is no item. *)
Definition query_of (items : list string) : string :=
  match items with
  | [] => ""%string
  | _ => ("?" ++ Str.join "&" items)%string
  end.

(** The events a run of [wait_for_sync] with [k] sleeps adds to the
    trace: a fetch, then [k] times a sleep of the interval and a fetch. *)
Fixpoint poll_events (rq : request) (interval : Z) (k : nat) : list event :=
  match k with
  | O => [Sent rq]
  | S k' => Sent rq :: Slept interval :: poll_events rq interval k'
  end.

(** A response that carries a status which reports synced. *)
Definition synced `{Env} (r : Response) : bool :=
  Httpx.is_success r
  && match json_loads (text r) with
     | Some status =>
         match synced_flag status with
         | Return true => true
         | _ => false
         end
     | None => false
     end.

(** An upper-case hexadecimal digit. *)
Definition upper_hex (c : ascii) : bool :=
  Urllib.in_range "0" "9" c || Urllib.in_range "A" "F" c.

(** What the encoding of a query key or value makes of one byte: an
    unreserved character stands for itself, a space becomes a plus sign,
    and any other byte becomes a percent sign and the two upper-case
    hexadecimal digits of its code. *)
Definition byte_encoding (c : ascii) (enc : string) : Prop :=
  if Urllib.always_safe c then enc = String c EmptyString
  else if Ascii.eqb c " " then enc = "+"%string
  else exists h1 h2,
      enc = String "%" (String h1 (String h2 EmptyString))
      /\ upper_hex h1 = true
      /\ upper_hex h2 = true
      /\ hex_value h1 = Some (nat_of_ascii c / 16)%nat
      /\ hex_value h2 = Some (nat_of_ascii c mod 16)%nat.

(** * Properties *)

(** ** The transport operations, step by step *)

Section Transport.

Context `{E : Env}.

Lemma call_reply (self : HttpClient.t) (c : call) (w : world) (r : Response) :
  node (sent_count w) (call_request (HttpClient.base_url self) (HttpClient._client self) c) = Reply r ->
  HttpClient_call self c w
  = (response_result r, after_send w (call_request (HttpClient.base_url self) (HttpClient._client self) c)).
Proof.
  intros Hr.
  destruct c; cbn [HttpClient_call call_request] in *;
    unfold HttpClient.get, HttpClient.post, HttpClient.put, HttpClient.delete,
      bind, Httpx.request, Httpx.send, lift, response_result, after_send;
    rewrite Hr; destruct (_handle_error r); reflexivity.
Qed.

Lemma call_noreply (self : HttpClient.t) (c : call) (w : world) (f : net_failure) :
  node (sent_count w) (call_request (HttpClient.base_url self) (HttpClient._client self) c) = NoReply f ->
  HttpClient_call self c w
  = (Raise (TransportError f),
     after_send w (call_request (HttpClient.base_url self) (HttpClient._client self) c)).
Proof.
  intros Hr.
  destruct c; cbn [HttpClient_call call_request] in *;
    unfold HttpClient.get, HttpClient.post, HttpClient.put, HttpClient.delete,
      bind, Httpx.request, Httpx.send, after_send;
    rewrite Hr; reflexivity.
Qed.

Lemma handle_error_success (r : Response) :
  Httpx.is_success r = true -> _handle_error r = Return tt.
Proof. intros H. unfold _handle_error. now rewrite H. Qed.

Lemma handle_error_failure (r : Response) :
  Httpx.is_success r = false ->
  exists msg code,
    _handle_error r = Raise (ClawTokenError msg (status_code r) code JNull)
    /\ (msg, code) = match error_fields r with
                     | Return mc => mc
                     | _ => (JStr (text r), JNull)
                     end.
Proof.
  intros H. unfold _handle_error. rewrite H.
  destruct (match error_fields r with Return mc => mc | _ => (JStr (text r), JNull) end) as [msg code].
  now exists msg, code.
Qed.

Lemma error_fields_structured (r : Response) (d e : list (string * json)) (c m : json) :
  json_loads (text r) = Some (JObj d) ->
  dict_get d "error" = Some (JObj e) ->
  dict_get e "code" = Some c ->
  dict_get e "message" = Some m ->
  error_fields r = Return (m, c).
Proof.
  intros Hj He Hc Hm. unfold error_fields, Httpx.json.
  rewrite Hj. cbn. rewrite He. cbn. now rewrite Hm, Hc.
Qed.

(** C1. A response outside 2xx whose body decodes to an object with an
    [error] object holding [code] C and [message] M (the body
    [{"error": {"code": C, "message": M}}] is the instance with no other
    field) makes each of get, post, put and delete raise the node error
    with [status] the HTTP status, [code] C and message M. *)
Theorem structured_error_is_surfaced
    (self : HttpClient.t) (c : call) (w : world) (r : Response)
    (d e : list (string * json)) (C Msg : json) :
  node (sent_count w) (call_request (HttpClient.base_url self) (HttpClient._client self) c) = Reply r ->
  Httpx.is_success r = false ->
  json_loads (text r) = Some (JObj d) ->
  dict_get d "error" = Some (JObj e) ->
  dict_get e "code" = Some C ->
  dict_get e "message" = Some Msg ->
  fst (HttpClient_call self c w) = Raise (ClawTokenError Msg (status_code r) C JNull).
Proof.
  intros Hr Hs Hj He Hc Hm.
  rewrite (call_reply _ _ _ _ Hr). cbn [fst]. unfold response_result.
  destruct (handle_error_failure r Hs) as (msg & code & -> & Hmc).
  rewrite (error_fields_structured r d e C Msg Hj He Hc Hm) in Hmc.
  now inversion Hmc.
Qed.

Lemma error_fields_unmatched (r : Response) :
  has_error_message r = false ->
  match error_fields r with
  | Return mc => mc
  | _ => (JStr (text r), JNull)
  end
  = (JStr (text r), match declared_code r with Some c => c | None => JNull end).
Proof.
  unfold has_error_message, declared_code, error_fields, Httpx.json.
  destruct (json_loads (text r)) as [body|]; [|reflexivity].
  destruct body; try reflexivity. cbn.
  destruct (dict_get d "error") as [e|]; cbn; [|intros _; reflexivity].
  destruct e; try reflexivity. cbn.
  destruct (dict_get d0 "message"); [discriminate|].
  intros _. now destruct (dict_get d0 "code").
Qed.

(** C2, as the code has it. A response outside 2xx whose body does not
    decode to an object with an [error] object holding a [message] makes
    each of get, post, put and delete raise the node error whose message
    is the raw body text; its code is the [code] of the body's [error]
    object when the body has one, and is unset otherwise. *)
Theorem unmatched_error_falls_back_to_text
    (self : HttpClient.t) (c : call) (w : world) (r : Response) :
  node (sent_count w) (call_request (HttpClient.base_url self) (HttpClient._client self) c) = Reply r ->
  Httpx.is_success r = false ->
  has_error_message r = false ->
  fst (HttpClient_call self c w)
  = Raise (ClawTokenError (JStr (text r)) (status_code r)
             (match declared_code r with Some code => code | None => JNull end) JNull).
Proof.
  intros Hr Hs Hm.
  rewrite (call_reply _ _ _ _ Hr). cbn [fst]. unfold response_result.
  destruct (handle_error_failure r Hs) as (msg & code & -> & Hmc).
  rewrite (error_fields_unmatched r Hm) in Hmc.
  now inversion Hmc.
Qed.

(** C4. A 2xx response whose body is valid JSON makes each of get, post,
    put and delete return the decoded value itself, and nothing is
    raised. *)
Theorem success_returns_decoded_value
    (self : HttpClient.t) (c : call) (w : world) (r : Response) (v : json) :
  node (sent_count w) (call_request (HttpClient.base_url self) (HttpClient._client self) c) = Reply r ->
  Httpx.is_success r = true ->
  json_loads (text r) = Some v ->
  fst (HttpClient_call self c w) = Return v.
Proof.
  intros Hr Hs Hj.
  rewrite (call_reply _ _ _ _ Hr). cbn [fst]. unfold response_result.
  rewrite (handle_error_success r Hs). cbn. unfold Httpx.json. now rewrite Hj.
Qed.

(** C9. A 2xx response whose body the decoder rejects (an empty body, or
    text that is not JSON) makes each of get, post, put and delete raise
    the decode failure: no value is returned in its place. *)
Theorem success_with_undecodable_body_raises
    (self : HttpClient.t) (c : call) (w : world) (r : Response) :
  node (sent_count w) (call_request (HttpClient.base_url self) (HttpClient._client self) c) = Reply r ->
  Httpx.is_success r = true ->
  json_loads (text r) = None ->
  fst (HttpClient_call self c w) = Raise JSONDecodeError
  /\ forall v, fst (HttpClient_call self c w) <> Return v.
Proof.
  intros Hr Hs Hj.
  rewrite (call_reply _ _ _ _ Hr). cbn [fst]. unfold response_result.
  rewrite (handle_error_success r Hs). cbn. unfold Httpx.json. rewrite Hj.
  split; [reflexivity | discriminate].
Qed.

(** Whatever the reply, a call issues exactly its request. *)
Lemma call_sends (self : HttpClient.t) (c : call) (w : world) :
  snd (HttpClient_call self c w)
  = after_send w (call_request (HttpClient.base_url self) (HttpClient._client self) c).
Proof.
  destruct (node (sent_count w)
              (call_request (HttpClient.base_url self) (HttpClient._client self) c)) eqn:Hr.
  - now rewrite (call_reply _ _ _ _ Hr).
  - now rewrite (call_noreply _ _ _ _ Hr).
Qed.

(** The event loop runs an asynchronous call to what the blocking call
    does, when the two clients hold the same configuration. *)
Lemma async_call_run (aself : AsyncHttpClient.t) (self : HttpClient.t) (c : call) (w : world) :
  AsyncHttpClient.base_url aself = HttpClient.base_url self ->
  AsyncHttpClient._client aself = HttpClient._client self ->
  run_until_complete (AsyncHttpClient_call aself c) w = HttpClient_call self c w.
Proof.
  intros Hb Hc.
  destruct c; cbn [AsyncHttpClient_call HttpClient_call];
    unfold AsyncHttpClient.get, AsyncHttpClient.post, AsyncHttpClient.put, AsyncHttpClient.delete,
      HttpClient.get, HttpClient.post, HttpClient.put, HttpClient.delete,
      await_request, Httpx.request, alift, aret;
    rewrite Hb, Hc; cbn; unfold bind;
    match goal with |- context [Httpx.send ?rq w] => destruct (Httpx.send rq w) as [[r|e|] w'] end;
    try reflexivity;
    unfold lift; destruct (_handle_error r); reflexivity.
Qed.

(** C8. For every configuration, call and node, running the asynchronous
    client's operation yields what the synchronous client's operation
    yields: the two clients are configured alike (base URL, timeout,
    headers), the same request is issued (URL, headers, body), and the
    same value is returned or the same exception raised, in the same
    final world. *)
Theorem async_client_agrees_with_sync
    (base : string) (timeout : Z) (api_key : option string)
    (headers : option (gmap string string)) (c : call) (w : world) :
  AsyncHttpClient.base_url (AsyncHttpClient.__init__ base timeout api_key headers)
  = HttpClient.base_url (HttpClient.__init__ base timeout api_key headers)
  /\ AsyncHttpClient._client (AsyncHttpClient.__init__ base timeout api_key headers)
     = HttpClient._client (HttpClient.__init__ base timeout api_key headers)
  /\ run_until_complete
       (AsyncHttpClient_call (AsyncHttpClient.__init__ base timeout api_key headers) c) w
     = HttpClient_call (HttpClient.__init__ base timeout api_key headers) c w.
Proof.
  split; [reflexivity|]. split; [reflexivity|].
  now apply async_call_run.
Qed.

Lemma init_headers_override (base : string) (timeout : Z) (api_key : option string)
    (h : gmap string string) (k v : string) :
  h !! k = Some v ->
  Httpx.headers (HttpClient._client (HttpClient.__init__ base timeout api_key (Some h))) !! k = Some v.
Proof.
  intros Hk. cbn.
  destruct (decide (h = ∅)) as [->|_].
  - now rewrite lookup_empty in Hk.
  - now apply lookup_union_Some_l.
Qed.

(** C10. A client built with a non-empty [api_key] and extra headers that
    hold the key [Authorization] sends, in every request of either
    client, the caller's [Authorization] value: the extra headers are
    merged last and replace the bearer header. *)
Theorem caller_authorization_overrides_bearer
    (base : string) (timeout : Z) (key : string) (h : gmap string string) (v : string)
    (c : call) (w : world) :
  key <> ""%string ->
  h !! "Authorization"%string = Some v ->
  (exists rq,
      trace (snd (HttpClient_call (HttpClient.__init__ base timeout (Some key) (Some h)) c w))
      = trace w ++ [Sent rq]
      /\ req_headers rq !! "Authorization"%string = Some v)
  /\ (exists rq,
      trace (snd (run_until_complete
                    (AsyncHttpClient_call
                       (AsyncHttpClient.__init__ base timeout (Some key) (Some h)) c) w))
      = trace w ++ [Sent rq]
      /\ req_headers rq !! "Authorization"%string = Some v).
Proof.
  intros _ Hv.
  assert (Hsync : exists rq,
             trace (snd (HttpClient_call (HttpClient.__init__ base timeout (Some key) (Some h)) c w))
             = trace w ++ [Sent rq]
             /\ req_headers rq !! "Authorization"%string = Some v).
  { rewrite call_sends. eexists. split; [reflexivity|].
    destruct c; apply (init_headers_override base timeout (Some key) h _ _ Hv). }
  split; [exact Hsync|].
  now rewrite (async_call_run _ (HttpClient.__init__ base timeout (Some key) (Some h))).
Qed.

End Transport.

(** ** URL construction *)

Lemma append_cons (c : ascii) (a b : string) :
  (String c a ++ b)%string = String c (a ++ b)%string.
Proof. reflexivity. Qed.

Lemma append_nil_r (s : string) : (s ++ "")%string = s.
Proof. induction s as [|c s IH]; [reflexivity | now rewrite append_cons, IH]. Qed.

Lemma append_assoc (a b c : string) : ((a ++ b) ++ c)%string = (a ++ (b ++ c))%string.
Proof. induction a as [|x a IH]; [reflexivity | now rewrite !append_cons, IH]. Qed.

Lemma list_ascii_of_string_app (a b : string) :
  list_ascii_of_string (a ++ b) = list_ascii_of_string a ++ list_ascii_of_string b.
Proof.
  induction a as [|x a IH]; [reflexivity|].
  rewrite append_cons. cbn [list_ascii_of_string]. now rewrite IH.
Qed.

Lemma build_url_suffix (base path : string) (params : params_t) :
  _build_url base path (Some params)
  = (Str.rstrip_slash base ++ path ++ query_suffix (filter_not_None params))%string.
Proof.
  unfold _build_url, query_suffix.
  destruct params as [|kv params].
  - cbn. now rewrite append_nil_r.
  - destruct (filter_not_None (kv :: params)).
    + now rewrite append_nil_r.
    + unfold Urllib.urlencode. now rewrite append_assoc.
Qed.

Lemma filter_not_None_drop (p1 p2 : params_t) (k : string) :
  filter_not_None (p1 ++ (k, Urllib.Scalar Urllib.ANone) :: p2) = filter_not_None (p1 ++ p2).
Proof. unfold filter_not_None. now rewrite !List.filter_app. Qed.

Lemma filter_not_None_all_None (keys : list string) :
  filter_not_None (map (fun k => (k, Urllib.Scalar Urllib.ANone)) keys) = [].
Proof. induction keys as [|k keys IH]; [reflexivity | exact IH]. Qed.

Lemma filter_not_None_sound (params : params_t) :
  Forall (fun kv => Urllib.is_None (snd kv) = false) (filter_not_None params).
Proof.
  induction params as [|[k v] params IH]; cbn; [constructor|].
  destruct (Urllib.is_None v) eqn:Hv; cbn; [exact IH | now constructor].
Qed.

Lemma hex_digit_safe (n : nat) : Urllib.always_safe (Urllib.hex_digit n) = true.
Proof. do 15 (destruct n as [|n]; [reflexivity|]). reflexivity. Qed.

Lemma quote_byte_chars (c : ascii) :
  Forall (fun x => component_char x = true) (list_ascii_of_string (Urllib.quote_byte c)).
Proof.
  unfold Urllib.quote_byte.
  destruct (Urllib.always_safe c) eqn:Hs.
  - repeat constructor. unfold component_char. now rewrite Hs.
  - destruct (Ascii.eqb c " ").
    + repeat constructor.
    + unfold Urllib.percent. cbn. repeat constructor;
        unfold component_char; now rewrite hex_digit_safe.
Qed.

Lemma quote_plus_chars (s : string) :
  Forall (fun x => component_char x = true) (list_ascii_of_string (Urllib.quote_plus s)).
Proof.
  induction s as [|c s IH]; cbn; [constructor|].
  rewrite list_ascii_of_string_app. apply Forall_app. split; [apply quote_byte_chars | exact IH].
Qed.

Lemma unquote_plus_byte (c : ascii) (rest : string) :
  unquote (plus_to_space (Urllib.quote_byte c ++ rest))
  = String c (unquote (plus_to_space rest)).
Proof. destruct c as [[] [] [] [] [] [] [] []]; reflexivity. Qed.

Lemma unquote_plus_quote_plus (s : string) : unquote_plus (Urllib.quote_plus s) = s.
Proof.
  unfold unquote_plus. induction s as [|c s IH]; [reflexivity|].
  cbn [Urllib.quote_plus]. now rewrite unquote_plus_byte, IH.
Qed.

Lemma quote_plus_app (a b : string) :
  Urllib.quote_plus (a ++ b) = (Urllib.quote_plus a ++ Urllib.quote_plus b)%string.
Proof.
  induction a as [|c a IH]; [reflexivity|].
  rewrite append_cons. cbn [Urllib.quote_plus]. now rewrite IH, append_assoc.
Qed.

Lemma hex_digit_upper (n : nat) : upper_hex (Urllib.hex_digit n) = true.
Proof. do 15 (destruct n as [|n]; [reflexivity|]). reflexivity. Qed.

Lemma hex_value_hex_digit (n : nat) :
  (n < 16)%nat -> hex_value (Urllib.hex_digit n) = Some n.
Proof. intros Hn. do 16 (destruct n as [|n]; [reflexivity|]). lia. Qed.

Lemma quote_plus_byte_encoding (c : ascii) :
  byte_encoding c (Urllib.quote_plus (String c EmptyString)).
Proof.
  unfold byte_encoding. cbn [Urllib.quote_plus]. unfold Urllib.quote_byte.
  destruct (Urllib.always_safe c); [reflexivity|].
  destruct (Ascii.eqb c " "); [reflexivity|].
  unfold Urllib.percent.
  exists (Urllib.hex_digit (nat_of_ascii c / 16)), (Urllib.hex_digit (nat_of_ascii c mod 16)).
  split; [reflexivity|]. split; [apply hex_digit_upper|]. split; [apply hex_digit_upper|].
  pose proof (nat_ascii_bounded c) as Hb.
  split; apply hex_value_hex_digit.
  - apply Nat.Div0.div_lt_upper_bound; lia.
  - apply Nat.mod_upper_bound. lia.
Qed.

(** C3. A key whose value is [None] leaves the URL as it is without the
    key; a mapping whose values are all [None], an empty mapping and an
    absent mapping add no [?] suffix; what remains is the entries whose
    value is not [None], each key and value percent-encoded on its own
    (an encoded component holds no reserved character); and the query
    [{did: "did:x", address: None}] gives [?did=did%3Ax]. The encoding
    itself is fixed byte by byte: an unreserved character stands for
    itself, a space becomes [+], any other byte becomes [%] and the two
    upper-case hexadecimal digits of its code; a string is encoded byte
    after byte, and decoding gives it back. Items are joined by [&], a
    sequence repeats its key. *)
Theorem build_url_omits_None_and_encodes
    (base path : string) (params p1 p2 : params_t) (k : string) (keys : list string)
    (s : string) (c : ascii) (a b : string) :
  _build_url base path (Some (p1 ++ (k, Urllib.Scalar Urllib.ANone) :: p2))
  = _build_url base path (Some (p1 ++ p2))
  /\ _build_url base path (Some (map (fun k => (k, Urllib.Scalar Urllib.ANone)) keys))
     = (Str.rstrip_slash base ++ path)%string
  /\ _build_url base path (Some []) = (Str.rstrip_slash base ++ path)%string
  /\ _build_url base path None = (Str.rstrip_slash base ++ path)%string
  /\ _build_url base path (Some params)
     = (Str.rstrip_slash base ++ path ++ query_suffix (filter_not_None params))%string
  /\ Forall (fun kv => Urllib.is_None (snd kv) = false) (filter_not_None params)
  /\ Forall (fun c => component_char c = true) (list_ascii_of_string (Urllib.quote_plus s))
  /\ _build_url base "/api/wallet/balance"
       (Some [("did", Urllib.Scalar (Urllib.AStr "did:x"));
              ("address", Urllib.Scalar Urllib.ANone)]%string)
     = (Str.rstrip_slash base ++ "/api/wallet/balance?did=did%3Ax")%string
  /\ byte_encoding c (Urllib.quote_plus (String c EmptyString))
  /\ Urllib.quote_plus (a ++ b) = (Urllib.quote_plus a ++ Urllib.quote_plus b)%string
  /\ unquote_plus (Urllib.quote_plus s) = s
  /\ _build_url base "/api/test"
       (Some [("limit", Urllib.Scalar (Urllib.AInt 5));
              ("type", Urllib.Scalar Urllib.ANone);
              ("tag", Urllib.Seq [Urllib.AStr "a b"; Urllib.ABool true]);
              ("q", Urllib.Scalar (Urllib.AStr "x/y?&=#"))]%string)
     = (Str.rstrip_slash base
        ++ "/api/test?limit=5&tag=a+b&tag=True&q=x%2Fy%3F%26%3D%23")%string.
Proof.
  split; [now rewrite !build_url_suffix, filter_not_None_drop|].
  split.
  { rewrite build_url_suffix, filter_not_None_all_None.
    unfold query_suffix. now rewrite append_nil_r. }
  split; [reflexivity|]. split; [reflexivity|].
  split; [apply build_url_suffix|].
  split; [apply filter_not_None_sound|].
  split; [apply quote_plus_chars|].
  split; [rewrite build_url_suffix; reflexivity|].
  split; [apply quote_plus_byte_encoding|].
  split; [apply quote_plus_app|].
  split; [apply unquote_plus_quote_plus|].
  rewrite build_url_suffix. reflexivity.
Qed.

(** [WalletApi.get_balance], over the synchronous client, asks for exactly
    that URL. *)
Lemma get_balance_request `{Env} (self : HttpClient.t) (did : string) (w : world) :
  did <> ""%string ->
  exists rq,
    trace (snd (WalletApi.get_balance {| WalletApi._http_get := HttpClient.get self |}
                  (Some did) None w))
    = trace w ++ [Sent rq]
    /\ req_method rq = GET
    /\ req_url rq = (Str.rstrip_slash (HttpClient.base_url self)
                     ++ "/api/wallet/balance?did=" ++ Urllib.quote_plus did)%string.
Proof.
  intros Hd. unfold WalletApi.get_balance, WalletApi.balance_params, WalletApi.str_truthy.
  apply String.eqb_neq in Hd. rewrite Hd. cbn [negb dict_set WalletApi._http_get].
  change (HttpClient.get self ?p ?q) with (HttpClient_call self (Get p q)).
  rewrite call_sends. eexists. split; [reflexivity|]. split; [reflexivity|].
  cbn [call_request Httpx.build_request req_url]. rewrite build_url_suffix. reflexivity.
Qed.

(** ** The sync-wait helper *)

Section SyncWait.

Context `{E : Env}.

Lemma get_status_call (self : NodeApi.t) :
  NodeApi.get_status self = HttpClient_call (NodeApi._http self) (Get "/api/node/status" None).
Proof. reflexivity. Qed.

(** One turn of the loop on a status that reports synced. *)
Lemma poll_synced (fuel : nat) (self : NodeApi.t) (interval timeout deadline : Z)
    (w : world) (status : json) :
  fst (NodeApi.get_status self w) = Return status ->
  synced_flag status = Return true ->
  NodeApi.poll (S fuel) self interval timeout deadline w = NodeApi.get_status self w.
Proof.
  intros Hs Hf. cbn [NodeApi.poll]. unfold bind at 1.
  destruct (NodeApi.get_status self w) as [o w1]. cbn in Hs. subst o.
  unfold synced_flag in Hf. unfold bind, lift.
  destruct (py_get status "synced" JNull) as [s| |]; cbn in Hf; try discriminate.
  injection Hf as Hf. now rewrite Hf.
Qed.

(** One turn of the loop on a status that does not. *)
Lemma poll_unsynced (fuel : nat) (self : NodeApi.t) (interval timeout deadline : Z)
    (w : world) (status : json) :
  fst (NodeApi.get_status self w) = Return status ->
  synced_flag status = Return false ->
  NodeApi.poll (S fuel) self interval timeout deadline w
  = let w1 := snd (NodeApi.get_status self w) in
    if deadline <=? clock w1 then (Raise (TimeoutError timeout), w1)
    else if interval <? 0 then (Raise ValueError, w1)
    else NodeApi.poll fuel self interval timeout deadline (after_sleep w1 interval).
Proof.
  intros Hs Hf. cbn [NodeApi.poll]. unfold bind at 1.
  destruct (NodeApi.get_status self w) as [o w1]. cbn in Hs. subst o. cbn [snd].
  unfold synced_flag in Hf. unfold bind at 1. unfold lift.
  destruct (py_get status "synced" JNull) as [s| |]; cbn in Hf; try discriminate.
  injection Hf as Hf. rewrite Hf.
  unfold bind, monotonic, raise, time_sleep, after_sleep.
  destruct (deadline <=? clock w1); [reflexivity|].
  now destruct (interval <? 0).
Qed.

Lemma unsynced_fetch (self : NodeApi.t) (w : world) (r : Response) :
  node (sent_count w)
    (status_request (HttpClient.base_url (NodeApi._http self))
       (HttpClient._client (NodeApi._http self))) = Reply r ->
  unsynced r = true ->
  exists status,
    NodeApi.get_status self w
    = (Return status,
       after_send w (status_request (HttpClient.base_url (NodeApi._http self))
                       (HttpClient._client (NodeApi._http self))))
    /\ synced_flag status = Return false.
Proof.
  intros Hr Hu. unfold unsynced in Hu. apply andb_prop in Hu as [Hs Hu].
  destruct (json_loads (text r)) as [status|] eqn:Hj; [|discriminate].
  exists status. split.
  - rewrite get_status_call. unfold status_request in Hr.
    rewrite (call_reply _ _ _ _ Hr). unfold response_result.
    rewrite (handle_error_success r Hs). cbn. unfold Httpx.json. now rewrite Hj.
  - destruct (synced_flag status) as [[|]| |]; congruence.
Qed.

(** One turn of the loop, whatever the fetch brings. *)
Lemma poll_S (fuel : nat) (self : NodeApi.t) (interval timeout deadline : Z) (w : world) :
  NodeApi.poll (S fuel) self interval timeout deadline w
  = match NodeApi.get_status self w with
    | (Return status, w1) =>
        match py_get status "synced" JNull with
        | Return s =>
            if py_truthy s then (Return status, w1)
            else if deadline <=? clock w1 then (Raise (TimeoutError timeout), w1)
            else if interval <? 0 then (Raise ValueError, w1)
            else NodeApi.poll fuel self interval timeout deadline (after_sleep w1 interval)
        | Raise e => (Raise e, w1)
        | OutOfFuel => (OutOfFuel, w1)
        end
    | (Raise e, w1) => (Raise e, w1)
    | (OutOfFuel, w1) => (OutOfFuel, w1)
    end.
Proof.
  cbn [NodeApi.poll]. unfold bind at 1.
  destruct (NodeApi.get_status self w) as [[status|e|] w1]; try reflexivity.
  unfold bind at 1. unfold lift.
  destruct (py_get status "synced" JNull) as [s|e|]; try reflexivity.
  destruct (py_truthy s); [reflexivity|].
  unfold bind, monotonic, raise, time_sleep, after_sleep.
  destruct (deadline <=? clock w1); [reflexivity|].
  now destruct (interval <? 0).
Qed.

Lemma wait_for_sync_poll (fuel : nat) (self : NodeApi.t) (interval timeout : Z) (w : world) :
  NodeApi.wait_for_sync fuel self interval timeout w
  = NodeApi.poll fuel self interval timeout (clock w + timeout) w.
Proof. reflexivity. Qed.

Lemma get_status_world (self : NodeApi.t) (w : world) :
  snd (NodeApi.get_status self w)
  = after_send w (status_request (HttpClient.base_url (NodeApi._http self))
                    (HttpClient._client (NodeApi._http self))).
Proof. rewrite get_status_call. apply call_sends. Qed.

(** The loop only ever adds to the trace, and its first event is the
    status fetch. *)
Lemma poll_trace_extends (fuel : nat) (self : NodeApi.t) (interval timeout deadline : Z) :
  forall w, exists rest,
    trace (snd (NodeApi.poll fuel self interval timeout deadline w)) = trace w ++ rest.
Proof.
  induction fuel as [|fuel IH]; intros w.
  - exists []. cbn. now rewrite app_nil_r.
  - rewrite poll_S. pose proof (get_status_world self w) as Hw.
    destruct (NodeApi.get_status self w) as [o w1]. cbn [snd] in Hw.
    assert (Ht : trace w1 = trace w ++ [Sent (status_request (HttpClient.base_url (NodeApi._http self))
                    (HttpClient._client (NodeApi._http self)))]) by now rewrite Hw.
    destruct o as [status|e|]; try (eexists; exact Ht).
    destruct (py_get status "synced" JNull) as [s|e|]; try (eexists; exact Ht).
    destruct (py_truthy s); [eexists; exact Ht|].
    destruct (deadline <=? clock w1); [eexists; exact Ht|].
    destruct (interval <? 0); [eexists; exact Ht|].
    destruct (IH (after_sleep w1 interval)) as [rest Hrest].
    eexists. rewrite Hrest. cbn [after_sleep trace]. rewrite Ht, <- !app_assoc. reflexivity.
Qed.

Lemma poll_first_event (fuel : nat) (self : NodeApi.t) (interval timeout deadline : Z) (w : world) :
  exists rest,
    trace (snd (NodeApi.poll (S fuel) self interval timeout deadline w))
    = trace w ++ Sent (status_request (HttpClient.base_url (NodeApi._http self))
                         (HttpClient._client (NodeApi._http self))) :: rest.
Proof.
  rewrite poll_S. pose proof (get_status_world self w) as Hw.
  destruct (NodeApi.get_status self w) as [o w1]. cbn [snd] in Hw.
  assert (Ht : trace w1 = trace w ++ [Sent (status_request (HttpClient.base_url (NodeApi._http self))
                  (HttpClient._client (NodeApi._http self)))]) by now rewrite Hw.
  destruct o as [status|e|]; try (exists []; exact Ht).
  destruct (py_get status "synced" JNull) as [s|e|]; try (exists []; exact Ht).
  destruct (py_truthy s); [exists []; exact Ht|].
  destruct (deadline <=? clock w1); [exists []; exact Ht|].
  destruct (interval <? 0); [exists []; exact Ht|].
  destruct (poll_trace_extends fuel self interval timeout deadline (after_sleep w1 interval))
    as [rest Hrest].
  exists (Slept interval :: rest). rewrite Hrest. cbn [after_sleep trace].
  rewrite Ht, <- !app_assoc. reflexivity.
Qed.

(** C5. When the first status fetch reports synced, [wait_for_sync] is
    that one fetch: it returns the status fetched, and the only event it
    adds to the world is the request of the fetch; there is no sleep and
    no second request, whatever the interval and the timeout. *)
Theorem wait_for_sync_returns_first_synced_status
    (self : NodeApi.t) (interval timeout : Z) (w : world) (status : json) (fuel : nat) :
  fst (NodeApi.get_status self w) = Return status ->
  synced_flag status = Return true ->
  NodeApi.wait_for_sync (S fuel) self interval timeout w = NodeApi.get_status self w
  /\ fst (NodeApi.wait_for_sync (S fuel) self interval timeout w) = Return status
  /\ trace (snd (NodeApi.wait_for_sync (S fuel) self interval timeout w))
     = trace w ++ [Sent (status_request (HttpClient.base_url (NodeApi._http self))
                           (HttpClient._client (NodeApi._http self)))]
  /\ slept_count (snd (NodeApi.wait_for_sync (S fuel) self interval timeout w)) = slept_count w
  /\ sent_count (snd (NodeApi.wait_for_sync (S fuel) self interval timeout w)) = S (sent_count w).
Proof.
  intros Hs Hf.
  rewrite wait_for_sync_poll, (poll_synced _ _ _ _ _ _ _ Hs Hf).
  split; [reflexivity|]. split; [exact Hs|].
  rewrite get_status_world.
  split; [reflexivity|].
  unfold slept_count, sent_count, after_send. cbn [trace].
  rewrite !List.filter_app, !length_app. cbn. split; lia.
Qed.

(** Against a node that never reports synced and answers at once, the
    loop ends in the timeout failure once the clock has reached the
    deadline: after at most [j] sleeps when [j] intervals reach it. *)
Lemma poll_times_out (self : NodeApi.t) (interval timeout deadline : Z) :
  0 < interval ->
  instantaneous ->
  never_synced (status_request (HttpClient.base_url (NodeApi._http self))
                  (HttpClient._client (NodeApi._http self))) ->
  forall (j : nat) (w : world) (fuel : nat),
    deadline <= clock w + Z.of_nat j * interval ->
    (j < fuel)%nat ->
    exists w',
      NodeApi.poll fuel self interval timeout deadline w = (Raise (TimeoutError timeout), w')
      /\ deadline <= clock w'
      /\ (clock w' = clock w \/ clock w' < deadline + interval).
Proof.
  intros Hi Hinst Hnever.
  induction j as [|j IH]; intros w fuel Hd Hfuel;
    (destruct fuel as [|fuel]; [lia|]);
    destruct (Hnever (sent_count w)) as (r & Hr & Hu);
    destruct (unsynced_fetch self w r Hr Hu) as (status & Hg & Hflag);
    rewrite (poll_unsynced fuel self interval timeout deadline w status
               ltac:(now rewrite Hg) Hflag);
    rewrite Hg; cbn [snd];
    set (w1 := after_send w _);
    assert (Hc : clock w1 = clock w)
      by (subst w1; unfold after_send; cbn [clock]; rewrite Hinst; cbn; lia).
  - replace (deadline <=? clock w1) with true by (symmetry; apply Z.leb_le; lia).
    exists w1. repeat split; [lia | left; exact Hc].
  - destruct (deadline <=? clock w1) eqn:Hle.
    + apply Z.leb_le in Hle. exists w1. repeat split; [lia | left; exact Hc].
    + apply Z.leb_gt in Hle.
      replace (interval <? 0) with false by (symmetry; apply Z.ltb_ge; lia).
      destruct (IH (after_sleep w1 interval) fuel) as (w' & Hrun & Hge & Hbound).
      * unfold after_sleep. cbn [clock]. lia.
      * lia.
      * exists w'. split; [exact Hrun|]. split; [exact Hge|].
        right. unfold after_sleep in Hbound. cbn [clock] in Hbound. lia.
Qed.

(** ** The event loop on the asynchronous helper *)

Lemma run_abind {A B : Type} (c : coro A) (f : A -> coro B) :
  forall w,
    run_until_complete (abind c f) w
    = bind (run_until_complete c) (fun a => run_until_complete (f a)) w.
Proof.
  induction c as [o|rq k IH|d k IH|k IH]; intros w.
  - destruct o; reflexivity.
  - cbn [abind run_until_complete]. unfold bind at 1 2 3.
    destruct (Httpx.send rq w) as [[r|e|] w']; try reflexivity. apply IH.
  - cbn [abind run_until_complete]. unfold bind at 1 2 3.
    destruct (asyncio_sleep d w) as [[u|e|] w']; try reflexivity. apply IH.
  - cbn [abind run_until_complete]. unfold bind at 1 2 3.
    destruct (monotonic w) as [[t|e|] w']; try reflexivity. apply IH.
Qed.

Lemma asyncio_sleep_positive (d : Z) (w : world) :
  0 < d -> asyncio_sleep d w = time_sleep d w.
Proof.
  intros Hd. unfold asyncio_sleep, time_sleep.
  replace (d <=? 0) with false by (symmetry; apply Z.leb_gt; lia).
  replace (d <? 0) with false by (symmetry; apply Z.ltb_ge; lia).
  reflexivity.
Qed.

Lemma async_get_status_run (aself : AsyncNodeApi.t) (w : world) :
  run_until_complete (AsyncNodeApi.get_status aself) w = NodeApi.get_status (blocking_of aself) w.
Proof.
  unfold AsyncNodeApi.get_status.
  change (AsyncHttpClient.get ?a ?p ?q) with (AsyncHttpClient_call a (Get p q)).
  rewrite (async_call_run _ (NodeApi._http (blocking_of aself))); reflexivity.
Qed.

Lemma async_poll_run (aself : AsyncNodeApi.t) (interval timeout deadline : Z) :
  0 < interval ->
  forall (fuel : nat) (w : world),
    run_until_complete (AsyncNodeApi.poll fuel aself interval timeout deadline) w
    = NodeApi.poll fuel (blocking_of aself) interval timeout deadline w.
Proof.
  intros Hi. induction fuel as [|fuel IH]; intros w; [reflexivity|].
  rewrite poll_S. cbn [AsyncNodeApi.poll].
  rewrite run_abind. unfold bind at 1. rewrite async_get_status_run.
  destruct (NodeApi.get_status (blocking_of aself) w) as [[status|e|] w1]; try reflexivity.
  rewrite run_abind. unfold bind at 1. unfold alift. cbn [run_until_complete]. unfold lift.
  destruct (py_get status "synced" JNull) as [s|e|]; try reflexivity.
  destruct (py_truthy s); [reflexivity|].
  rewrite run_abind. unfold bind at 1. unfold amonotonic, aret. cbn [run_until_complete].
  unfold bind at 1. unfold monotonic, lift.
  destruct (deadline <=? clock w1); [reflexivity|].
  rewrite run_abind. unfold bind at 1. unfold await_sleep, aret. cbn [run_until_complete].
  unfold bind at 1. rewrite (asyncio_sleep_positive interval w1 Hi). unfold time_sleep, lift.
  replace (interval <? 0) with false by (symmetry; apply Z.ltb_ge; lia).
  apply IH.
Qed.

Lemma async_wait_for_sync_run (aself : AsyncNodeApi.t) (interval timeout : Z)
    (fuel : nat) (w : world) :
  0 < interval ->
  run_until_complete (AsyncNodeApi.wait_for_sync fuel aself interval timeout) w
  = NodeApi.wait_for_sync fuel (blocking_of aself) interval timeout w.
Proof.
  intros Hi. unfold AsyncNodeApi.wait_for_sync.
  rewrite run_abind. unfold bind at 1. unfold amonotonic, aret. cbn [run_until_complete].
  unfold bind at 1. unfold monotonic, lift.
  rewrite (async_poll_run aself interval timeout (clock w + timeout) Hi). reflexivity.
Qed.

Lemma wait_for_sync_times_out (self : NodeApi.t) (interval timeout : Z) (w : world) (fuel : nat) :
  0 < interval ->
  0 <= timeout ->
  instantaneous ->
  never_synced (status_request (HttpClient.base_url (NodeApi._http self))
                  (HttpClient._client (NodeApi._http self))) ->
  (Z.to_nat timeout < fuel)%nat ->
  exists w',
    NodeApi.wait_for_sync fuel self interval timeout w = (Raise (TimeoutError timeout), w')
    /\ timeout <= clock w' - clock w <= timeout + interval.
Proof.
  intros Hi Ht Hinst Hnever Hfuel. rewrite wait_for_sync_poll.
  destruct (poll_times_out self interval timeout (clock w + timeout) Hi Hinst Hnever
              (Z.to_nat timeout) w fuel) as (w' & Hrun & Hge & Hbound).
  - rewrite Z2Nat.id by lia. nia.
  - exact Hfuel.
  - exists w'. split; [exact Hrun|]. lia.
Qed.

(** C6, as the code has it. For a positive poll interval and a timeout
    that is not negative, against a status endpoint that never reports
    synced and answers at once, [wait_for_sync] of either client raises
    the timeout failure (given fuel for the iterations), at an elapsed
    time that is at least the timeout and at most the timeout plus one
    interval. *)
Theorem wait_for_sync_timeout_bounds
    (self : NodeApi.t) (aself : AsyncNodeApi.t) (interval timeout : Z) (w : world) :
  0 < interval ->
  0 <= timeout ->
  instantaneous ->
  never_synced (status_request (HttpClient.base_url (NodeApi._http self))
                  (HttpClient._client (NodeApi._http self))) ->
  never_synced (status_request (AsyncHttpClient.base_url (AsyncNodeApi._http aself))
                  (AsyncHttpClient._client (AsyncNodeApi._http aself))) ->
  exists n : nat, forall fuel : nat, (n <= fuel)%nat ->
    (exists w',
        NodeApi.wait_for_sync fuel self interval timeout w = (Raise (TimeoutError timeout), w')
        /\ timeout <= clock w' - clock w <= timeout + interval)
    /\ (exists w',
        run_until_complete (AsyncNodeApi.wait_for_sync fuel aself interval timeout) w
        = (Raise (TimeoutError timeout), w')
        /\ timeout <= clock w' - clock w <= timeout + interval).
Proof.
  intros Hi Ht Hinst Hsync Hasync.
  exists (S (Z.to_nat timeout)). intros fuel Hfuel. split.
  - apply wait_for_sync_times_out; auto with zarith; lia.
  - rewrite (async_wait_for_sync_run aself interval timeout fuel w Hi).
    apply wait_for_sync_times_out; auto with zarith; lia.
Qed.

(** C7, as the code has it. The timeout failure is never raised before a
    status fetch: a run of [wait_for_sync] that ends in the timeout
    failure has issued the status request first, for every timeout and
    interval, so at least one attempt is made before failing. When the
    timeout does not exceed the time the first fetch takes (in
    particular when it is zero or less) the run has done nothing else,
    and it does end in the timeout failure after its one fetch if the
    status fetched does not report synced. *)
Theorem timeout_failure_follows_first_fetch
    (self : NodeApi.t) (interval timeout : Z) (w : world) (fuel : nat) :
  (forall tm w',
      NodeApi.wait_for_sync fuel self interval timeout w = (Raise (TimeoutError tm), w') ->
      (exists rest,
          trace w' = trace w ++ Sent (status_request (HttpClient.base_url (NodeApi._http self))
                                        (HttpClient._client (NodeApi._http self))) :: rest)
      /\ (timeout <= Z.of_N (latency (sent_count w)) ->
          trace w' = trace w ++ [Sent (status_request (HttpClient.base_url (NodeApi._http self))
                                         (HttpClient._client (NodeApi._http self)))]))
  /\ (forall status,
      timeout <= Z.of_N (latency (sent_count w)) ->
      fst (NodeApi.get_status self w) = Return status ->
      synced_flag status = Return false ->
      NodeApi.wait_for_sync (S fuel) self interval timeout w
      = (Raise (TimeoutError timeout), snd (NodeApi.get_status self w)))
  /\ (timeout <= 0 -> timeout <= Z.of_N (latency (sent_count w))).
Proof.
  split; [|split; [|lia]].
  - intros tm w' Hrun. rewrite wait_for_sync_poll in Hrun.
    destruct fuel as [|fuel]; [discriminate|]. split.
    + destruct (poll_first_event fuel self interval timeout (clock w + timeout) w) as [rest Hr].
      exists rest. now rewrite Hrun in Hr.
    + intros Ht. rewrite poll_S in Hrun.
      pose proof (get_status_world self w) as Hw.
      destruct (NodeApi.get_status self w) as [o w1]. cbn [snd] in Hw.
      assert (Hc : clock w + timeout <= clock w1)
        by (rewrite Hw; unfold after_send; cbn [clock]; lia).
      assert (Htr : trace w1 = trace w ++ [Sent (status_request
                       (HttpClient.base_url (NodeApi._http self))
                       (HttpClient._client (NodeApi._http self)))]) by now rewrite Hw.
      destruct o as [status|e|]; [|now inversion Hrun; subst|discriminate].
      destruct (py_get status "synced" JNull) as [s|e|];
        [|now inversion Hrun; subst|discriminate].
      destruct (py_truthy s); [discriminate|].
      replace (clock w + timeout <=? clock w1) with true in Hrun
        by (symmetry; apply Z.leb_le; lia).
      now inversion Hrun; subst.
  - intros status Ht Hs Hf. rewrite wait_for_sync_poll.
    rewrite (poll_unsynced fuel self interval timeout (clock w + timeout) w status Hs Hf).
    cbn zeta. rewrite get_status_world.
    replace (clock w + timeout <=? clock (after_send w _)) with true; [reflexivity|].
    symmetry. apply Z.leb_le. unfold after_send. cbn [clock]. lia.
Qed.

(** With a poll interval of zero and fetches that take no time, the clock
    stands still: before the deadline, the loop never leaves. *)
Lemma poll_zero_interval_never_ends (self : NodeApi.t) (timeout deadline : Z) :
  instantaneous ->
  never_synced (status_request (HttpClient.base_url (NodeApi._http self))
                  (HttpClient._client (NodeApi._http self))) ->
  forall (fuel : nat) (w : world),
    clock w < deadline ->
    fst (NodeApi.poll fuel self 0 timeout deadline w) = OutOfFuel.
Proof.
  intros Hinst Hnever.
  induction fuel as [|fuel IH]; intros w Hlt; [reflexivity|].
  destruct (Hnever (sent_count w)) as (r & Hr & Hu).
  destruct (unsynced_fetch self w r Hr Hu) as (status & Hg & Hflag).
  rewrite (poll_unsynced fuel self 0 timeout deadline w status ltac:(now rewrite Hg) Hflag).
  rewrite Hg. cbn [snd]. set (w1 := after_send w _).
  assert (Hc : clock w1 = clock w)
    by (subst w1; unfold after_send; cbn [clock]; rewrite Hinst; cbn; lia).
  replace (deadline <=? clock w1) with false by (symmetry; apply Z.leb_gt; lia).
  cbn [Z.ltb Z.compare]. apply IH. unfold after_sleep. cbn [clock]. lia.
Qed.

End SyncWait.

(** * The properties at concrete inputs *)

Lemma structured_error_is_surfaced_witness :
  fst (@HttpClient_call Demo.not_found Demo.client (Get "/api/fail" None) Demo.w0)
  = Raise (ClawTokenError (JStr "Resource not found") 404 (JStr "NOT_FOUND") JNull).
Proof.
  refine (@structured_error_is_surfaced Demo.not_found Demo.client (Get "/api/fail" None) Demo.w0
            {| status_code := 404;
               text := Json.text "{'error': {'code': 'NOT_FOUND', 'message': 'Resource not found'}}" |}
            [("error", JObj [("code", JStr "NOT_FOUND"); ("message", JStr "Resource not found")])]%string
            [("code", JStr "NOT_FOUND"); ("message", JStr "Resource not found")]%string
            (JStr "NOT_FOUND") (JStr "Resource not found") _ _ _ _ _ _);
    vm_compute; reflexivity.
Defined.

Lemma unmatched_error_falls_back_to_text_witness :
  fst (@HttpClient_call Demo.plain_failure Demo.client (Get "/api/fail" None) Demo.w0)
  = Raise (ClawTokenError (JStr "Internal Server Error") 500 JNull JNull).
Proof.
  refine (@unmatched_error_falls_back_to_text Demo.plain_failure Demo.client
            (Get "/api/fail" None) Demo.w0
            {| status_code := 500; text := Json.text "Internal Server Error" |} _ _ _);
    vm_compute; reflexivity.
Defined.

(** C2, as the claim states it, fails on the body [{"error": {"code": "X"}}]:
    it holds no [error.message], the message is the raw text, and yet the
    code of the node error is ["X"], not [None]. *)
Lemma unmatched_error_code_counterexample :
  @Httpx.is_success {| status_code := 500; text := Json.text "{'error': {'code': 'X'}}" |} = false
  /\ @has_error_message Demo.code_without_message
       {| status_code := 500; text := Json.text "{'error': {'code': 'X'}}" |} = false
  /\ fst (@HttpClient_call Demo.code_without_message Demo.client (Get "/api/fail" None) Demo.w0)
     = Raise (ClawTokenError (JStr (Json.text "{'error': {'code': 'X'}}")) 500 (JStr "X") JNull)
  /\ JStr "X" <> JNull.
Proof.
  split; [reflexivity|]. split; [vm_compute; reflexivity|].
  split; [vm_compute; reflexivity | discriminate].
Qed.

Lemma success_returns_decoded_value_witness :
  fst (@HttpClient_call Demo.created Demo.client
         (Post "/api/contracts" (Some (JObj [("title", JStr "Job")]%string))) Demo.w0)
  = Return (JObj [("contractId", JStr "ct-1"); ("txHash", JStr "tx-1")]%string).
Proof.
  refine (@success_returns_decoded_value Demo.created Demo.client
            (Post "/api/contracts" (Some (JObj [("title", JStr "Job")]%string))) Demo.w0
            {| status_code := 201; text := Json.text "{'contractId': 'ct-1', 'txHash': 'tx-1'}" |}
            _ _ _ _);
    vm_compute; reflexivity.
Defined.

Lemma success_with_undecodable_body_raises_witness :
  fst (@HttpClient_call Demo.empty_success Demo.client (Delete "/api/listings/7" None) Demo.w0)
  = Raise JSONDecodeError.
Proof.
  refine (proj1 (@success_with_undecodable_body_raises Demo.empty_success Demo.client
                   (Delete "/api/listings/7" None) Demo.w0
                   {| status_code := 204; text := Json.text "" |} _ _ _));
    vm_compute; reflexivity.
Defined.

Lemma caller_authorization_overrides_bearer_witness :
  exists rq,
    trace (snd (@HttpClient_call Demo.synced_node
                  (HttpClient.__init__ DEFAULT_BASE_URL DEFAULT_TIMEOUT (Some "secret"%string)
                     (Some {[ "Authorization"%string := "Token abc"%string ]}))
                  (Get "/api/secure" None) Demo.w0))
    = trace Demo.w0 ++ [Sent rq]
    /\ req_headers rq !! "Authorization"%string = Some "Token abc"%string.
Proof.
  refine (proj1 (@caller_authorization_overrides_bearer Demo.synced_node
                   DEFAULT_BASE_URL DEFAULT_TIMEOUT "secret"
                   {[ "Authorization"%string := "Token abc"%string ]} "Token abc"
                   (Get "/api/secure" None) Demo.w0 _ _));
    [discriminate | vm_compute; reflexivity].
Defined.

Lemma wait_for_sync_returns_first_synced_status_witness :
  fst (@NodeApi.wait_for_sync Demo.synced_node 1 Demo.node_api 2 5 Demo.w0)
  = Return (JObj [("did", JStr "did:claw:z6MkNode"); ("synced", JBool true);
                  ("blockHeight", JInt 100)]%string).
Proof.
  refine (proj1 (proj2 (@wait_for_sync_returns_first_synced_status Demo.synced_node
                          Demo.node_api 2 5 Demo.w0 _ 0%nat _ _)));
    vm_compute; reflexivity.
Defined.

Lemma wait_for_sync_timeout_bounds_witness :
  exists n : nat, forall fuel : nat, (n <= fuel)%nat ->
    (exists w',
        @NodeApi.wait_for_sync Demo.unsynced_node fuel Demo.node_api 2 5 Demo.w0
        = (Raise (TimeoutError 5), w')
        /\ 5 <= clock w' - clock Demo.w0 <= 5 + 2)
    /\ (exists w',
        @run_until_complete Demo.unsynced_node json
          (@AsyncNodeApi.wait_for_sync Demo.unsynced_node fuel Demo.anode_api 2 5) Demo.w0
        = (Raise (TimeoutError 5), w')
        /\ 5 <= clock w' - clock Demo.w0 <= 5 + 2).
Proof.
  refine (@wait_for_sync_timeout_bounds Demo.unsynced_node Demo.node_api Demo.anode_api
            2 5 Demo.w0 _ _ _ _ _);
    [ lia | lia | intros n; reflexivity
    | intros n; eexists; split; [reflexivity | vm_compute; reflexivity]
    | intros n; eexists; split; [reflexivity | vm_compute; reflexivity] ].
Defined.

(** C6, as the claim states it, fails in three places. With a poll
    interval of zero (and fetches that take no time) no timeout failure is
    ever raised; with a negative timeout the failure comes at elapsed time
    zero, later than the timeout plus the interval; with a negative
    interval the blocking helper raises [ValueError] from its sleep. *)
Lemma wait_for_sync_timeout_bounds_counterexample :
  (forall fuel : nat,
      fst (@NodeApi.wait_for_sync Demo.unsynced_node fuel Demo.node_api 0 1 Demo.w0) = OutOfFuel)
  /\ (exists w',
         @NodeApi.wait_for_sync Demo.unsynced_node 1 Demo.node_api 1 (-10) Demo.w0
         = (Raise (TimeoutError (-10)), w')
         /\ clock w' - clock Demo.w0 = 0
         /\ ~ clock w' - clock Demo.w0 <= -10 + 1)
  /\ fst (@NodeApi.wait_for_sync Demo.unsynced_node 2 Demo.node_api (-1) 5 Demo.w0)
     = Raise ValueError.
Proof.
  split; [|split].
  - intros fuel. rewrite wait_for_sync_poll.
    apply poll_zero_interval_never_ends.
    + intros n. reflexivity.
    + intros n. eexists. split; [reflexivity | vm_compute; reflexivity].
    + cbn. lia.
  - eexists. split; [vm_compute; reflexivity|]. cbn. split; lia.
  - vm_compute. reflexivity.
Qed.

Lemma timeout_failure_follows_first_fetch_witness :
  @NodeApi.wait_for_sync Demo.unsynced_node 1 Demo.node_api 2 0 Demo.w0
  = (Raise (TimeoutError 0), snd (@NodeApi.get_status Demo.unsynced_node Demo.node_api Demo.w0)).
Proof.
  refine (proj1 (proj2 (@timeout_failure_follows_first_fetch Demo.unsynced_node Demo.node_api
                          2 0 Demo.w0 0%nat)) _ _ _ _);
    [cbn; lia | vm_compute; reflexivity | vm_compute; reflexivity].
Defined.

(** C7, as the claim states it, fails for a timeout below the interval
    that is not used up by the first fetch: with an interval of 2, a
    timeout of 1 and fetches that take no time, the deadline has not
    passed after the first fetch, the helper sleeps, and the timeout
    failure comes after the second fetch. *)
Lemma timeout_after_second_fetch_counterexample :
  1 < 2
  /\ fst (@NodeApi.wait_for_sync Demo.unsynced_node 10 Demo.node_api 2 1 Demo.w0)
     = Raise (TimeoutError 1)
  /\ sent_count (snd (@NodeApi.wait_for_sync Demo.unsynced_node 10 Demo.node_api 2 1 Demo.w0))
     = (sent_count Demo.w0 + 2)%nat
  /\ slept_count (snd (@NodeApi.wait_for_sync Demo.unsynced_node 10 Demo.node_api 2 1 Demo.w0))
     = (slept_count Demo.w0 + 1)%nat.
Proof. split; [lia|]. vm_compute. repeat split. Qed.

(** ** The scenarios of the specification, evaluated *)

Example bearer_header_attached :
  Httpx.headers (HttpClient._client
                   (HttpClient.__init__ DEFAULT_BASE_URL DEFAULT_TIMEOUT (Some "secret"%string) None))
    !! "Authorization"%string
  = Some "Bearer secret"%string.
Proof. vm_compute. reflexivity. Qed.

Example build_url_mixed_values :
  _build_url "http://h//" "/api/test"
    (Some [("limit", Urllib.Scalar (Urllib.AInt 5)); ("type", Urllib.Scalar Urllib.ANone);
           ("tag", Urllib.Seq [Urllib.AStr "a b"; Urllib.ABool true]);
           ("q", Urllib.Scalar (Urllib.AStr "x/y?&="))]%string)
  = "http://h/api/test?limit=5&tag=a+b&tag=True&q=x%2Fy%3F%26%3D"%string.
Proof. vm_compute. reflexivity. Qed.

Example wait_for_sync_third_fetch :
  let r := @NodeApi.wait_for_sync Demo.syncing_node 10 Demo.node_api 2 60 Demo.w0 in
  fst r = Return (JObj [("synced", JBool true)]%string)
  /\ clock (snd r) - clock Demo.w0 = 7
  /\ sent_count (snd r) = 3%nat
  /\ slept_count (snd r) = 2%nat.
Proof. vm_compute. repeat split. Qed.

Example wait_for_sync_short_timeout :
  let r := @NodeApi.wait_for_sync Demo.unsynced_node 10 Demo.node_api 2 1 Demo.w0 in
  fst r = Raise (TimeoutError 1)
  /\ clock (snd r) - clock Demo.w0 = 2
  /\ sent_count (snd r) = 2%nat.
Proof. vm_compute. repeat split. Qed.

Example json_loads_fragment :
  Json.loads (Json.text " {'a': [1, -20, true, null, {}], 'b': 'x', 'a': 3} ")
  = Some (JObj [("a", JInt 3); ("b", JStr "x")]%string)
  /\ Json.loads "" = None
  /\ Json.loads "not json" = None
  /\ Json.loads "[1,]" = None.
Proof. vm_compute. repeat split. Qed.

(** * Further properties of the transport core *)

Section TransportMore.

Context `{E : Env}.

Lemma error_fields_total (r : Response) :
  match error_fields r with
  | Return mc => mc
  | _ => (JStr (text r), JNull)
  end
  = (match declared_message r with Some m => m | None => JStr (text r) end,
     match declared_code r with Some c => c | None => JNull end).
Proof.
  unfold declared_message, declared_code, error_fields, Httpx.json.
  destruct (json_loads (text r)) as [[| | | | | |d]|]; try reflexivity.
  cbn. destruct (dict_get d "error") as [[| | | | | |e]|]; reflexivity.
Qed.

Lemma is_success_range (r : Response) :
  Httpx.is_success r = true <-> 200 <= status_code r <= 299.
Proof.
  unfold Httpx.is_success. rewrite andb_true_iff, !Z.leb_le. tauto.
Qed.

Lemma response_result_cases (r : Response) :
  (Httpx.is_success r = true
   /\ response_result r = match json_loads (text r) with
                          | Some v => Return v
                          | None => Raise JSONDecodeError
                          end)
  \/ (Httpx.is_success r = false
      /\ response_result r
         = Raise (ClawTokenError
                    (match declared_message r with Some m => m | None => JStr (text r) end)
                    (status_code r)
                    (match declared_code r with Some c => c | None => JNull end) JNull)).
Proof.
  unfold response_result.
  destruct (Httpx.is_success r) eqn:Hs; [left | right]; (split; [reflexivity|]).
  - now rewrite (handle_error_success r Hs).
  - destruct (handle_error_failure r Hs) as (msg & code & -> & Hmc).
    rewrite error_fields_total in Hmc. now inversion Hmc.
Qed.

(** X1. Every response outside 2xx makes each of get, post, put and
    delete raise the node error, whatever the body: its status is the HTTP
    status, its message is the [message] of the body's [error] object if
    there is one and the raw body text otherwise, its code is the [code]
    of that object if there is one and [None] otherwise, and its details
    are [None]. No decoding failure of the body escapes. *)
Theorem non_success_raises_node_error
    (self : HttpClient.t) (c : call) (w : world) (r : Response) :
  node (sent_count w) (call_request (HttpClient.base_url self) (HttpClient._client self) c) = Reply r ->
  status_code r < 200 \/ 299 < status_code r ->
  fst (HttpClient_call self c w)
  = Raise (ClawTokenError
             (match declared_message r with Some m => m | None => JStr (text r) end)
             (status_code r)
             (match declared_code r with Some code => code | None => JNull end) JNull).
Proof.
  intros Hr Hrange. rewrite (call_reply _ _ _ _ Hr). cbn [fst].
  destruct (response_result_cases r) as [[Hs _]|[_ ->]]; [|reflexivity].
  apply is_success_range in Hs. lia.
Qed.

(** X2. A transport operation returns a value only when the node
    answered with a status in 200..299 whose body decodes to exactly that
    value. *)
Theorem returned_value_is_decoded_success_body
    (self : HttpClient.t) (c : call) (w : world) (v : json) :
  fst (HttpClient_call self c w) = Return v ->
  exists r,
    node (sent_count w) (call_request (HttpClient.base_url self) (HttpClient._client self) c)
    = Reply r
    /\ 200 <= status_code r <= 299
    /\ json_loads (text r) = Some v.
Proof.
  intros Hv.
  destruct (node (sent_count w)
              (call_request (HttpClient.base_url self) (HttpClient._client self) c)) as [r|f] eqn:Hr.
  - rewrite (call_reply _ _ _ _ Hr) in Hv. cbn [fst] in Hv.
    exists r. split; [reflexivity|].
    destruct (response_result_cases r) as [[Hs Hres]|[_ Hres]]; rewrite Hres in Hv.
    + split; [now apply is_success_range|].
      destruct (json_loads (text r)); [now inversion Hv | discriminate].
    + discriminate.
  - rewrite (call_noreply _ _ _ _ Hr) in Hv. discriminate.
Qed.

Lemma transport_outcome_of_call (self : HttpClient.t) (c : call) (w : world) :
  transport_outcome (fst (HttpClient_call self c w)) = true.
Proof.
  destruct (node (sent_count w)
              (call_request (HttpClient.base_url self) (HttpClient._client self) c)) as [r|f] eqn:Hr.
  - rewrite (call_reply _ _ _ _ Hr). cbn [fst].
    destruct (response_result_cases r) as [[_ ->]|[_ ->]]; [|reflexivity].
    now destruct (json_loads (text r)).
  - now rewrite (call_noreply _ _ _ _ Hr).
Qed.

(** X3. A transport operation ends in one of four ways: it returns, or it
    raises the node error (with no details), the decode failure or the
    transport failure. In particular the attribute error of a body of an
    unexpected shape never escapes the error mapping. *)
Theorem call_outcome_is_one_of_four (self : HttpClient.t) (c : call) (w : world) :
  transport_outcome (fst (HttpClient_call self c w)) = true.
Proof. apply transport_outcome_of_call. Qed.

(** X4. Each of get, post, put and delete makes exactly one round trip,
    whatever the reply: one request is added to the trace and nothing
    else, the clock advances by the latency of that round trip, and
    nothing is retried. A get or a delete carries no body. *)
Theorem call_makes_one_round_trip (self : HttpClient.t) (c : call) (w : world) :
  trace (snd (HttpClient_call self c w))
  = trace w ++ [Sent (call_request (HttpClient.base_url self) (HttpClient._client self) c)]
  /\ sent_count (snd (HttpClient_call self c w)) = S (sent_count w)
  /\ slept_count (snd (HttpClient_call self c w)) = slept_count w
  /\ clock (snd (HttpClient_call self c w)) = clock w + Z.of_N (latency (sent_count w))
  /\ (match c with
      | Get _ _ | Delete _ _ =>
          req_json (call_request (HttpClient.base_url self) (HttpClient._client self) c) = None
      | Post _ body | Put _ body =>
          req_json (call_request (HttpClient.base_url self) (HttpClient._client self) c) = body
      end).
Proof.
  rewrite call_sends. unfold after_send, sent_count, slept_count. cbn [trace clock].
  rewrite !List.filter_app, !length_app. cbn.
  repeat split; try lia. now destruct c.
Qed.

End TransportMore.

Lemma non_success_raises_node_error_witness :
  fst (@HttpClient_call Demo.message_without_code Demo.client (Get "/api/fail" None) Demo.w0)
  = Raise (ClawTokenError (JStr "moved") 301 JNull JNull).
Proof.
  refine (@non_success_raises_node_error Demo.message_without_code Demo.client
            (Get "/api/fail" None) Demo.w0
            {| status_code := 301; text := Json.text "{'error': {'message': 'moved'}}" |} _ _);
    [vm_compute; reflexivity | right; vm_compute; reflexivity].
Defined.

Lemma returned_value_is_decoded_success_body_witness :
  exists r,
    @node Demo.created (sent_count Demo.w0)
      (call_request (HttpClient.base_url Demo.client) (HttpClient._client Demo.client)
         (Post "/api/contracts" None))
    = Reply r
    /\ 200 <= status_code r <= 299
    /\ @json_loads Demo.created (text r)
       = Some (JObj [("contractId", JStr "ct-1"); ("txHash", JStr "tx-1")]%string).
Proof.
  refine (@returned_value_is_decoded_success_body Demo.created Demo.client
            (Post "/api/contracts" None) Demo.w0 _ _).
  vm_compute. reflexivity.
Defined.

(** * Further properties of URL construction *)

Lemma rstrip_slash_app_slash (s : string) :
  Str.rstrip_slash (s ++ "/") = Str.rstrip_slash s.
Proof.
  induction s as [|c s IH]; [reflexivity|].
  rewrite append_cons. cbn [Str.rstrip_slash]. now rewrite IH.
Qed.

Lemma rstrip_slash_idempotent (s : string) :
  Str.rstrip_slash (Str.rstrip_slash s) = Str.rstrip_slash s.
Proof.
  induction s as [|c s IH]; [reflexivity|].
  cbn [Str.rstrip_slash].
  destruct (Str.rstrip_slash s) as [|x r] eqn:Hr.
  - destruct (Ascii.eqb c Str.slash) eqn:Hc; [reflexivity|].
    cbn [Str.rstrip_slash]. now rewrite Hc.
  - cbn [Str.rstrip_slash]. cbn [Str.rstrip_slash] in IH. now rewrite IH.
Qed.

Lemma rstrip_slash_length (s : string) :
  (String.length (Str.rstrip_slash s) <= String.length s)%nat.
Proof.
  induction s as [|c s IH]; [reflexivity|].
  cbn [Str.rstrip_slash].
  destruct (Str.rstrip_slash s) as [|x r].
  - destruct (Ascii.eqb c Str.slash); cbn; lia.
  - cbn in *. lia.
Qed.

Lemma length_append (a b : string) :
  String.length (a ++ b) = (String.length a + String.length b)%nat.
Proof.
  induction a as [|x a IH]; [reflexivity|].
  rewrite append_cons. cbn [String.length]. now rewrite IH.
Qed.

(** X5. Trailing slashes of the base URL never reach a request URL:
    stripping is idempotent, its result ends with no slash, a base URL
    with one more trailing slash builds the same client, and a client
    requests the URL that [_build_url] gives for the base URL it was
    constructed with. *)
Theorem trailing_slashes_are_dropped
    (base path : string) (params : option params_t) (timeout : Z)
    (api_key : option string) (headers : option (gmap string string)) (t : string) :
  Str.rstrip_slash (Str.rstrip_slash base) = Str.rstrip_slash base
  /\ Str.rstrip_slash base <> (t ++ "/")%string
  /\ HttpClient.__init__ (base ++ "/") timeout api_key headers
     = HttpClient.__init__ base timeout api_key headers
  /\ _build_url (base ++ "/") path params = _build_url base path params
  /\ _build_url (HttpClient.base_url (HttpClient.__init__ base timeout api_key headers)) path params
     = _build_url base path params.
Proof.
  split; [apply rstrip_slash_idempotent|]. split.
  { intros Heq.
    pose proof (rstrip_slash_idempotent base) as Hi.
    rewrite Heq, rstrip_slash_app_slash in Hi.
    pose proof (rstrip_slash_length t) as Hl.
    rewrite Hi, length_append in Hl. cbn in Hl. lia. }
  split.
  { unfold HttpClient.__init__. now rewrite rstrip_slash_app_slash. }
  split.
  { unfold _build_url. now rewrite rstrip_slash_app_slash. }
  unfold _build_url. cbn [HttpClient.base_url HttpClient.__init__].
  now rewrite rstrip_slash_idempotent.
Qed.

Lemma unquote_segment_byte (c : ascii) (rest : string) :
  unquote (Urllib.quote_segment_byte c ++ rest) = String c (unquote rest).
Proof. destruct c as [[] [] [] [] [] [] [] []]; reflexivity. Qed.

Lemma unquote_quote (s : string) : unquote (Urllib.quote s) = s.
Proof.
  induction s as [|c s IH]; [reflexivity|].
  cbn [Urllib.quote]. now rewrite unquote_segment_byte, IH.
Qed.

(** X6. The encoding of query keys and values loses nothing:
    [unquote_plus] gives back what [quote_plus] was given, so two different
    strings never have the same encoding. *)
Theorem quote_plus_round_trip (s a b : string) :
  unquote_plus (Urllib.quote_plus s) = s
  /\ (Urllib.quote_plus a = Urllib.quote_plus b -> a = b).
Proof.
  split; [apply unquote_plus_quote_plus|].
  intros Heq. rewrite <- (unquote_plus_quote_plus a), <- (unquote_plus_quote_plus b).
  now rewrite Heq.
Qed.

Lemma count_char_app (x : ascii) (a b : string) :
  count_char x (a ++ b) = (count_char x a + count_char x b)%nat.
Proof.
  induction a as [|c a IH]; [reflexivity|].
  rewrite append_cons. cbn [count_char]. rewrite IH. lia.
Qed.

Lemma quote_segment_byte_chars (c : ascii) :
  Forall (fun x => segment_char x = true) (list_ascii_of_string (Urllib.quote_segment_byte c)).
Proof.
  unfold Urllib.quote_segment_byte.
  destruct (Urllib.always_safe c) eqn:Hs.
  - repeat constructor. unfold segment_char. now rewrite Hs.
  - unfold Urllib.percent. cbn. repeat constructor;
      unfold segment_char; now rewrite hex_digit_safe.
Qed.

Lemma quote_chars (s : string) :
  Forall (fun x => segment_char x = true) (list_ascii_of_string (Urllib.quote s)).
Proof.
  induction s as [|c s IH]; cbn [Urllib.quote]; [constructor|].
  rewrite list_ascii_of_string_app. apply Forall_app. split; [apply quote_segment_byte_chars | exact IH].
Qed.

Lemma count_char_absent (x : ascii) (s : string) (P : ascii -> bool) :
  P x = false ->
  Forall (fun c => P c = true) (list_ascii_of_string s) ->
  count_char x s = O.
Proof.
  intros Hx. induction s as [|c s IH]; intros Hall; [reflexivity|].
  cbn [list_ascii_of_string] in Hall. inversion Hall as [|? ? Hc Hrest]; subst.
  cbn [count_char]. rewrite (IH Hrest).
  destruct (Ascii.eqb c x) eqn:Hcx; [|reflexivity].
  apply Ascii.eqb_eq in Hcx. subst. congruence.
Qed.

(** X7. The encoding of a path segment, [quote(s, safe='')], is made of
    unreserved characters and percent signs only: whatever the identifier,
    the segment holds no slash, question mark, hash, ampersand, equals
    sign, plus or space; and [unquote] gives the identifier back, so two
    different identifiers never give the same segment. *)
Theorem quote_segment_is_safe_and_faithful (s a b : string) :
  Forall (fun c => segment_char c = true) (list_ascii_of_string (Urllib.quote s))
  /\ count_char "/" (Urllib.quote s) = O
  /\ count_char "?" (Urllib.quote s) = O
  /\ count_char "#" (Urllib.quote s) = O
  /\ count_char "&" (Urllib.quote s) = O
  /\ count_char "=" (Urllib.quote s) = O
  /\ count_char "+" (Urllib.quote s) = O
  /\ count_char " " (Urllib.quote s) = O
  /\ unquote (Urllib.quote s) = s
  /\ (Urllib.quote a = Urllib.quote b -> a = b).
Proof.
  pose proof (quote_chars s) as Hall.
  repeat (split; [first [exact Hall
                        | apply (count_char_absent _ _ segment_char); [reflexivity | exact Hall]
                        | apply unquote_quote]|]).
  intros Heq. rewrite <- (unquote_quote a), <- (unquote_quote b). now rewrite Heq.
Qed.

Lemma quote_plus_round_trip_witness : "did:x"%string = "did:x"%string.
Proof.
  exact (proj2 (quote_plus_round_trip "did:x" "did:x" "did:x") eq_refl).
Defined.

Lemma quote_segment_is_safe_and_faithful_witness : "a/b"%string = "a/b"%string.
Proof.
  exact (proj2 (proj2 (proj2 (proj2 (proj2 (proj2 (proj2 (proj2 (proj2
           (quote_segment_is_safe_and_faithful "a/b" "a/b" "a/b"))))))))) eq_refl).
Defined.

(** * Properties of the resource wrappers *)

Lemma quote_plus_safe (s : string) :
  Forall (fun c => Urllib.always_safe c = true) (list_ascii_of_string s) ->
  Urllib.quote_plus s = s.
Proof.
  induction s as [|c s IH]; intros Hall; [reflexivity|].
  cbn [list_ascii_of_string] in Hall. inversion Hall as [|? ? Hc Hrest]; subst.
  cbn [Urllib.quote_plus]. unfold Urllib.quote_byte. rewrite Hc, (IH Hrest). reflexivity.
Qed.

Lemma string_of_uint_safe (d : Decimal.uint) :
  Forall (fun c => Urllib.always_safe c = true)
    (list_ascii_of_string (NilEmpty.string_of_uint d)).
Proof. induction d; cbn; constructor; auto. Qed.

(** An integer is written in decimal and goes into the query as it is. *)
Lemma quote_plus_of_Z (z : Z) : Urllib.quote_plus (Str.of_Z z) = Str.of_Z z.
Proof.
  apply quote_plus_safe. unfold Str.of_Z, NilZero.string_of_int, NilZero.string_of_uint.
  destruct (Z.to_int z) as [d|d].
  - destruct d; try apply string_of_uint_safe. repeat constructor.
  - cbn [list_ascii_of_string]. constructor; [reflexivity|].
    destruct d; try apply string_of_uint_safe. repeat constructor.
Qed.

Section Wrappers.

Context `{E : Env}.

Lemma get_sends (self : HttpClient.t) (path : string) (params : option params_t) (w : world) :
  trace (snd (HttpClient.get self path params w))
  = trace w ++ [Sent {| req_method := GET;
                        req_url := _build_url (HttpClient.base_url self) path params;
                        req_headers := Httpx.headers (HttpClient._client self);
                        req_json := None |}].
Proof.
  change (HttpClient.get self path params) with (HttpClient_call self (Get path params)).
  now rewrite call_sends.
Qed.

Lemma post_sends (self : HttpClient.t) (path : string) (body : option json) (w : world) :
  trace (snd (HttpClient.post self path body w))
  = trace w ++ [Sent {| req_method := POST;
                        req_url := _build_url (HttpClient.base_url self) path None;
                        req_headers := Httpx.headers (HttpClient._client self);
                        req_json := body |}].
Proof.
  change (HttpClient.post self path body) with (HttpClient_call self (Post path body)).
  now rewrite call_sends.
Qed.

Lemma delete_sends (self : HttpClient.t) (path : string) (params : option params_t) (w : world) :
  trace (snd (HttpClient.delete self path params w))
  = trace w ++ [Sent {| req_method := DELETE;
                        req_url := _build_url (HttpClient.base_url self) path params;
                        req_headers := Httpx.headers (HttpClient._client self);
                        req_json := None |}].
Proof.
  change (HttpClient.delete self path params) with (HttpClient_call self (Delete path params)).
  now rewrite call_sends.
Qed.

Ltac query_cases :=
  repeat match goal with
         | |- context [String.eqb ?s ""] => destruct (String.eqb s "")
         end;
  cbn [negb dict_set filter_not_None List.filter Urllib.is_None snd fst
       query_suffix map concat Urllib.items_of app Str.join opt_item query_of option_map];
  unfold Urllib.pair_str, Urllib.str; rewrite ?quote_plus_of_Z; reflexivity.

(** X8. [get_peers] asks for [/api/node/peers] with the limit and the
    offset that were given, in that order, written in decimal; an
    argument left out is not sent, a zero is, and with neither there is
    no query at all. *)
Theorem get_peers_request (self : NodeApi.t) (limit offset : option Z) (w : world) :
  trace (snd (NodeApi.get_peers self limit offset w))
  = trace w ++ [Sent {| req_method := GET;
                        req_url := (Str.rstrip_slash (HttpClient.base_url (NodeApi._http self))
                                    ++ "/api/node/peers"
                                    ++ query_of (opt_item "limit" (option_map Str.of_Z limit)
                                                 ++ opt_item "offset" (option_map Str.of_Z offset)))%string;
                        req_headers := Httpx.headers (HttpClient._client (NodeApi._http self));
                        req_json := None |}].
Proof.
  unfold NodeApi.get_peers, NodeApi.peers_params.
  destruct limit as [l|], offset as [o|]; cbn [dict_set String.eqb Ascii.eqb Bool.eqb];
    rewrite get_sends; try rewrite build_url_suffix; do 3 f_equal; query_cases.
Qed.

(** X9. [get_history], over the synchronous client, asks for
    [/api/wallet/history] with [did], [limit], [offset] and [type] in that
    order: a [did] or [type] that is [None] or empty is not sent, a
    [limit] or [offset] is sent unless it is [None] (a zero is sent), and
    with nothing to send there is no query. *)
Theorem get_history_request
    (self : HttpClient.t) (did : option string) (limit offset : option Z)
    (type : option string) (w : world) :
  trace (snd (WalletApi.get_history {| WalletApi._http_get := HttpClient.get self |}
                did limit offset type w))
  = trace w ++ [Sent {| req_method := GET;
                        req_url := (Str.rstrip_slash (HttpClient.base_url self)
                                    ++ "/api/wallet/history"
                                    ++ query_of
                                         (opt_item "did" (option_map Urllib.quote_plus (truthy_str did))
                                          ++ opt_item "limit" (option_map Str.of_Z limit)
                                          ++ opt_item "offset" (option_map Str.of_Z offset)
                                          ++ opt_item "type" (option_map Urllib.quote_plus (truthy_str type))))%string;
                        req_headers := Httpx.headers (HttpClient._client self);
                        req_json := None |}].
Proof.
  unfold WalletApi.get_history, WalletApi.history_params, WalletApi.str_truthy,
    WalletApi.to_qvalue, truthy_str. cbn [WalletApi._http_get].
  destruct did as [d|], limit as [l|], offset as [o|], type as [t|];
    repeat match goal with
           | |- context [String.eqb ?x ""] => is_var x; destruct (String.eqb x "")
           end;
    cbn [negb dict_set String.eqb Ascii.eqb Bool.eqb];
    rewrite get_sends; try rewrite build_url_suffix; do 3 f_equal; query_cases.
Qed.

(** X10. [get_balance], over the synchronous client, asks for
    [/api/wallet/balance] with [did] and [address] in that order, each
    only when it is a non-empty string; called with neither, it sends no
    query (the node's own wallet). *)
Theorem get_balance_request_url
    (self : HttpClient.t) (did address : option string) (w : world) :
  trace (snd (WalletApi.get_balance {| WalletApi._http_get := HttpClient.get self |}
                did address w))
  = trace w ++ [Sent {| req_method := GET;
                        req_url := (Str.rstrip_slash (HttpClient.base_url self)
                                    ++ "/api/wallet/balance"
                                    ++ query_of
                                         (opt_item "did" (option_map Urllib.quote_plus (truthy_str did))
                                          ++ opt_item "address"
                                               (option_map Urllib.quote_plus (truthy_str address))))%string;
                        req_headers := Httpx.headers (HttpClient._client self);
                        req_json := None |}].
Proof.
  unfold WalletApi.get_balance, WalletApi.balance_params, WalletApi.str_truthy,
    WalletApi.to_qvalue, truthy_str. cbn [WalletApi._http_get].
  destruct did as [d|], address as [a|];
    repeat match goal with
           | |- context [String.eqb ?x ""] => is_var x; destruct (String.eqb x "")
           end;
    cbn [negb dict_set String.eqb Ascii.eqb Bool.eqb];
    rewrite get_sends; try rewrite build_url_suffix; do 3 f_equal; query_cases.
Qed.

(** X11. [IdentityApi.resolve] without a source, or with an empty one, is
    [IdentityApi.get]; with a source it asks for the same path followed by
    [?source=] and the encoded source. The DID is one encoded segment of
    the path. *)
Theorem resolve_request (self : IdentityApi.t) (did : string) (source : option string) (w : world) :
  (truthy_str source = None -> IdentityApi.resolve self did source = IdentityApi.get self did)
  /\ trace (snd (IdentityApi.resolve self did source w))
     = trace w ++ [Sent {| req_method := GET;
                           req_url := (Str.rstrip_slash (HttpClient.base_url (IdentityApi._http self))
                                       ++ ("/api/identity/" ++ Urllib.quote did)
                                       ++ query_of
                                            (opt_item "source"
                                               (option_map Urllib.quote_plus (truthy_str source))))%string;
                           req_headers := Httpx.headers (HttpClient._client (IdentityApi._http self));
                           req_json := None |}].
Proof.
  unfold IdentityApi.resolve, IdentityApi.get, WalletApi.str_truthy, WalletApi.to_qvalue, truthy_str.
  split.
  - destruct source as [x|]; [|reflexivity]. now destruct (String.eqb x "").
  - destruct source as [x|];
      repeat match goal with
             | |- context [String.eqb ?x ""] => is_var x; destruct (String.eqb x "")
             end;
      cbn [negb]; rewrite get_sends; try rewrite build_url_suffix; do 3 f_equal;
      try query_cases.
    all: unfold _build_url; cbn [query_of opt_item option_map app]; now rewrite append_nil_r.
Qed.

(** X12. [IdentityApi.list_capabilities] always sends the DID as the
    first query parameter, also when it is the empty string, followed by
    the limit and the offset that were given. *)
Theorem list_capabilities_request
    (self : IdentityApi.t) (did : string) (limit offset : option Z) (w : world) :
  trace (snd (IdentityApi.list_capabilities self did limit offset w))
  = trace w ++ [Sent {| req_method := GET;
                        req_url := (Str.rstrip_slash (HttpClient.base_url (IdentityApi._http self))
                                    ++ "/api/identity/capabilities"
                                    ++ query_of
                                         (opt_item "did" (Some (Urllib.quote_plus did))
                                          ++ opt_item "limit" (option_map Str.of_Z limit)
                                          ++ opt_item "offset" (option_map Str.of_Z offset)))%string;
                        req_headers := Httpx.headers (HttpClient._client (IdentityApi._http self));
                        req_json := None |}].
Proof.
  unfold IdentityApi.list_capabilities.
  destruct limit as [l|], offset as [o|]; cbn [dict_set String.eqb Ascii.eqb Bool.eqb];
    rewrite get_sends, build_url_suffix; do 3 f_equal; query_cases.
Qed.

Lemma count_char_quote (x : ascii) (s : string) :
  segment_char x = false -> count_char x (Urllib.quote s) = O.
Proof. intros Hx. apply (count_char_absent x _ segment_char Hx), quote_chars. Qed.

(** X13. [ContractsApi.submit_milestone] posts the keyword arguments as
    the JSON body (an empty dictionary when there are none) to a path
    with the two identifiers as one encoded segment each: whatever the
    identifiers hold, the path has exactly six slashes and no question
    mark or hash, so an identifier cannot add a segment, a query or a
    fragment. *)
Theorem submit_milestone_request
    (self : ContractsApi.t) (contract_id milestone_id : string)
    (kwargs : list (string * json)) (w : world) :
  trace (snd (ContractsApi.submit_milestone self contract_id milestone_id kwargs w))
  = trace w ++ [Sent {| req_method := POST;
                        req_url := (Str.rstrip_slash (HttpClient.base_url (ContractsApi._http self))
                                    ++ ("/api/contracts/" ++ Urllib.quote contract_id
                                        ++ "/milestones/" ++ Urllib.quote milestone_id
                                        ++ "/submit"))%string;
                        req_headers := Httpx.headers (HttpClient._client (ContractsApi._http self));
                        req_json := Some (JObj kwargs) |}]
  /\ count_char "/" ("/api/contracts/" ++ Urllib.quote contract_id
                     ++ "/milestones/" ++ Urllib.quote milestone_id ++ "/submit") = 6%nat
  /\ count_char "?" ("/api/contracts/" ++ Urllib.quote contract_id
                     ++ "/milestones/" ++ Urllib.quote milestone_id ++ "/submit") = 0%nat
  /\ count_char "#" ("/api/contracts/" ++ Urllib.quote contract_id
                     ++ "/milestones/" ++ Urllib.quote milestone_id ++ "/submit") = 0%nat.
Proof.
  split; [unfold ContractsApi.submit_milestone; now rewrite post_sends|].
  rewrite !count_char_app, !count_char_quote by reflexivity.
  repeat split.
Qed.

(** X14. [InfoMarketApi.remove] sends a DELETE for the listing and
    nothing of its keyword arguments: no body and no query, whatever is
    passed; [purchase], by contrast, posts its keyword arguments as the
    body. *)
Theorem remove_sends_no_arguments
    (self : HttpClient.t) (listing_id : string) (kwargs : list (string * json)) (w : world) :
  trace (snd (InfoMarketApi.remove
                {| InfoMarketApi._http_post := HttpClient.post self;
                   InfoMarketApi._http_delete := HttpClient.delete self |}
                listing_id kwargs w))
  = trace w ++ [Sent {| req_method := DELETE;
                        req_url := (Str.rstrip_slash (HttpClient.base_url self)
                                    ++ ("/api/markets/info/" ++ Urllib.quote listing_id))%string;
                        req_headers := Httpx.headers (HttpClient._client self);
                        req_json := None |}]
  /\ trace (snd (InfoMarketApi.purchase
                   {| InfoMarketApi._http_post := HttpClient.post self;
                      InfoMarketApi._http_delete := HttpClient.delete self |}
                   listing_id kwargs w))
     = trace w ++ [Sent {| req_method := POST;
                           req_url := (Str.rstrip_slash (HttpClient.base_url self)
                                       ++ ("/api/markets/info/" ++ Urllib.quote listing_id
                                           ++ "/purchase"))%string;
                           req_headers := Httpx.headers (HttpClient._client self);
                           req_json := Some (JObj kwargs) |}].
Proof.
  unfold InfoMarketApi.remove, InfoMarketApi.purchase.
  cbn [InfoMarketApi._http_post InfoMarketApi._http_delete].
  now rewrite delete_sends, post_sends.
Qed.

(** X15. Which headers a client sends. With a non-empty [api_key] and no
    [Authorization] among the extra headers, every request carries
    [Authorization: Bearer <api_key>]; with no [api_key], or an empty one,
    it carries no [Authorization] header unless the extra headers bring
    one; [Content-Type] is [application/json] unless the extra headers
    give another; and every extra header is sent as given. *)
Theorem client_headers
    (base : string) (timeout : Z) (api_key : option string)
    (headers : option (gmap string string)) (c : call) :
  let h := match headers with Some h => h | None => ∅ end in
  let sent := req_headers (call_request
                             (HttpClient.base_url (HttpClient.__init__ base timeout api_key headers))
                             (HttpClient._client (HttpClient.__init__ base timeout api_key headers))
                             c) in
  (forall k v, h !! k = Some v -> sent !! k = Some v)
  /\ (h !! "Authorization"%string = None ->
      sent !! "Authorization"%string
      = option_map (fun key => ("Bearer " ++ key)%string) (truthy_str api_key))
  /\ (h !! "Content-Type"%string = None ->
      sent !! "Content-Type"%string = Some "application/json"%string)
  /\ (forall k, k <> "Authorization"%string -> k <> "Content-Type"%string ->
      sent !! k = h !! k).
Proof.
  intros h sent.
  assert (Hsent : sent
                  = h ∪ match truthy_str api_key with
                        | Some key => <[ "Authorization"%string := ("Bearer " ++ key)%string ]>
                                        {[ "Content-Type"%string := "application/json"%string ]}
                        | None => {[ "Content-Type"%string := "application/json"%string ]}
                        end).
  { subst sent h. destruct c; cbn [call_request Httpx.build_request req_headers];
      unfold HttpClient.__init__; cbn [HttpClient._client Httpx.headers];
      unfold truthy_str;
      (destruct headers as [h|];
       [destruct (decide (h = ∅)) as [->|_]; rewrite ?(left_id_L ∅ (∪)) | rewrite (left_id_L ∅ (∪))];
       destruct api_key as [key|]; try reflexivity;
       destruct (String.eqb key ""); reflexivity). }
  rewrite Hsent. clear Hsent sent.
  split; [intros k v Hk; now apply lookup_union_Some_l|].
  split.
  { intros Hn. rewrite lookup_union_r by exact Hn.
    destruct (truthy_str api_key) as [key|]; cbn [option_map].
    - now rewrite lookup_insert_eq.
    - now rewrite lookup_singleton_ne. }
  split.
  { intros Hn. rewrite lookup_union_r by exact Hn.
    destruct (truthy_str api_key) as [key|].
    - rewrite lookup_insert_ne by discriminate. now rewrite lookup_singleton_eq.
    - now rewrite lookup_singleton_eq. }
  intros k Ha Hc. rewrite lookup_union.
  destruct (truthy_str api_key) as [key|].
  - rewrite lookup_insert_ne by congruence. rewrite lookup_singleton_ne by congruence.
    now destruct (h !! k).
  - rewrite lookup_singleton_ne by congruence. now destruct (h !! k).
Qed.

End Wrappers.

(** * Further properties of the sync-wait helper *)

Section SyncWaitMore.

Context `{E : Env}.

(** X16. A failure of the status fetch is not retried: when the first
    fetch raises (a node error, a decode failure, a transport failure),
    [wait_for_sync] is that one fetch and raises the same exception,
    without sleeping. *)
Theorem wait_for_sync_propagates_fetch_failure
    (self : NodeApi.t) (interval timeout : Z) (w : world) (e : exn) (fuel : nat) :
  fst (NodeApi.get_status self w) = Raise e ->
  NodeApi.wait_for_sync (S fuel) self interval timeout w = NodeApi.get_status self w
  /\ trace (snd (NodeApi.wait_for_sync (S fuel) self interval timeout w))
     = trace w ++ [Sent (status_request (HttpClient.base_url (NodeApi._http self))
                           (HttpClient._client (NodeApi._http self)))].
Proof.
  intros He. rewrite wait_for_sync_poll, poll_S.
  pose proof (get_status_world self w) as Hw.
  destruct (NodeApi.get_status self w) as [o w1]. cbn [fst snd] in *. subst o.
  split; [reflexivity|]. now rewrite Hw.
Qed.

(** X17. A status of the wrong shape is not polled again: when the first
    fetch returns a value that is not a dictionary, [wait_for_sync]
    raises [AttributeError] right after that fetch. *)
Theorem wait_for_sync_rejects_non_dict_status
    (self : NodeApi.t) (interval timeout : Z) (w : world) (status : json) (fuel : nat) :
  fst (NodeApi.get_status self w) = Return status ->
  is_dict status = false ->
  NodeApi.wait_for_sync (S fuel) self interval timeout w
  = (Raise AttributeError, snd (NodeApi.get_status self w)).
Proof.
  intros Hs Hd. rewrite wait_for_sync_poll, poll_S.
  destruct (NodeApi.get_status self w) as [o w1]. cbn [fst snd] in *. subst o.
  now destruct status.
Qed.

Lemma poll_returns_synced (self : NodeApi.t) (interval timeout deadline : Z) :
  forall (fuel : nat) (w w' : world) (status : json),
    NodeApi.poll fuel self interval timeout deadline w = (Return status, w') ->
    synced_flag status = Return true.
Proof.
  induction fuel as [|fuel IH]; intros w w' status Hrun; [discriminate|].
  rewrite poll_S in Hrun.
  destruct (NodeApi.get_status self w) as [[st|e|] w1]; try discriminate.
  destruct (py_get st "synced" JNull) as [s|e|] eqn:Hg; try discriminate.
  destruct (py_truthy s) eqn:Ht.
  - inversion Hrun; subst. unfold synced_flag. rewrite Hg. cbn. now rewrite Ht.
  - destruct (deadline <=? clock w1); [discriminate|].
    destruct (interval <? 0); [discriminate|].
    exact (IH _ _ _ Hrun).
Qed.

(** X18. Whatever [wait_for_sync] returns is a status that reports
    synced: the truthy [synced] entry is its only way to return. *)
Theorem wait_for_sync_returns_only_synced
    (self : NodeApi.t) (interval timeout : Z) (w w' : world) (status : json) (fuel : nat) :
  NodeApi.wait_for_sync fuel self interval timeout w = (Return status, w') ->
  synced_flag status = Return true.
Proof.
  intros Hrun. rewrite wait_for_sync_poll in Hrun.
  exact (poll_returns_synced _ _ _ _ _ _ _ _ Hrun).
Qed.

Lemma get_status_not_timeout (self : NodeApi.t) (w : world) (tm : Z) :
  fst (NodeApi.get_status self w) <> Raise (TimeoutError tm).
Proof.
  rewrite get_status_call. intros Heq.
  pose proof (transport_outcome_of_call (NodeApi._http self) (Get "/api/node/status" None) w) as Ht.
  rewrite Heq in Ht. discriminate.
Qed.

Lemma clock_after_fetch (self : NodeApi.t) (w : world) :
  clock w <= clock (snd (NodeApi.get_status self w)).
Proof. rewrite get_status_world. unfold after_send. cbn [clock]. lia. Qed.

Lemma poll_timeout_at_deadline (self : NodeApi.t) (interval timeout deadline : Z) :
  forall (fuel : nat) (w w' : world) (tm : Z),
    NodeApi.poll fuel self interval timeout deadline w = (Raise (TimeoutError tm), w') ->
    tm = timeout /\ deadline <= clock w'.
Proof.
  induction fuel as [|fuel IH]; intros w w' tm Hrun; [discriminate|].
  rewrite poll_S in Hrun.
  pose proof (get_status_not_timeout self w tm) as Hnt.
  destruct (NodeApi.get_status self w) as [[st|e|] w1]; cbn [fst] in Hnt;
    [|inversion Hrun; subst; congruence|discriminate].
  destruct (py_get st "synced" JNull) as [s|e|] eqn:Hg;
    [|destruct st; cbn in Hg; congruence|discriminate].
  destruct (py_truthy s); [discriminate|].
  destruct (deadline <=? clock w1) eqn:Hle.
  - inversion Hrun; subst. split; [reflexivity | now apply Z.leb_le].
  - destruct (interval <? 0); [discriminate|]. exact (IH _ _ _ Hrun).
Qed.

(** X19. The timeout failure is raised only once the timeout has
    elapsed, for every node, latency, interval and timeout: a run that
    ends in it has a clock that has advanced by at least the timeout, and
    the failure carries the timeout the helper was called with. *)
Theorem timeout_failure_only_after_timeout
    (self : NodeApi.t) (interval timeout : Z) (w w' : world) (tm : Z) (fuel : nat) :
  NodeApi.wait_for_sync fuel self interval timeout w = (Raise (TimeoutError tm), w') ->
  tm = timeout /\ timeout <= clock w' - clock w.
Proof.
  intros Hrun. rewrite wait_for_sync_poll in Hrun.
  destruct (poll_timeout_at_deadline _ _ _ _ _ _ _ _ Hrun) as [-> Hd]. split; [reflexivity | lia].
Qed.

Lemma poll_trace_shape (self : NodeApi.t) (interval timeout deadline : Z) :
  forall (fuel : nat) (w w' : world) (o : outcome json),
    NodeApi.poll fuel self interval timeout deadline w = (o, w') ->
    o <> OutOfFuel ->
    exists k : nat,
      (k < fuel)%nat
      /\ trace w' = trace w ++ poll_events
                                 (status_request (HttpClient.base_url (NodeApi._http self))
                                    (HttpClient._client (NodeApi._http self))) interval k.
Proof.
  induction fuel as [|fuel IH]; intros w w' o Hrun Ho;
    [inversion Hrun; subst; congruence|].
  rewrite poll_S in Hrun.
  pose proof (get_status_world self w) as Hw.
  destruct (NodeApi.get_status self w) as [o1 w1]. cbn [snd] in Hw.
  assert (Ht : trace w1 = trace w ++ [Sent (status_request (HttpClient.base_url (NodeApi._http self))
                  (HttpClient._client (NodeApi._http self)))]) by now rewrite Hw.
  assert (Hstop : forall o2, (o2, w1) = (o, w') ->
            exists k : nat, (k < S fuel)%nat
              /\ trace w' = trace w ++ poll_events
                   (status_request (HttpClient.base_url (NodeApi._http self))
                      (HttpClient._client (NodeApi._http self))) interval k).
  { intros o2 Heq. inversion Heq; subst. exists O. split; [lia | exact Ht]. }
  destruct o1 as [st|e|]; try (eapply Hstop; exact Hrun).
  destruct (py_get st "synced" JNull) as [s|e|]; try (eapply Hstop; exact Hrun).
  destruct (py_truthy s); [eapply Hstop; exact Hrun|].
  destruct (deadline <=? clock w1); [eapply Hstop; exact Hrun|].
  destruct (interval <? 0); [eapply Hstop; exact Hrun|].
  destruct (IH _ _ _ Hrun Ho) as (k & Hk & Htr).
  exists (S k). split; [lia|].
  rewrite Htr. cbn [after_sleep trace poll_events]. rewrite Ht, <- !app_assoc. reflexivity.
Qed.

(** X20. The shape of a run. Every run of [wait_for_sync] that ends (it
    returns or raises) has added to the trace one status fetch followed by
    some number of times a sleep of exactly the interval and another
    fetch: it never sleeps after its last fetch, never fetches twice
    without sleeping in between, and issues one fetch more than it
    sleeps. *)
Theorem wait_for_sync_trace_shape
    (self : NodeApi.t) (interval timeout : Z) (w w' : world) (o : outcome json) (fuel : nat) :
  NodeApi.wait_for_sync fuel self interval timeout w = (o, w') ->
  o <> OutOfFuel ->
  exists k : nat,
    (k < fuel)%nat
    /\ trace w' = trace w ++ poll_events
                               (status_request (HttpClient.base_url (NodeApi._http self))
                                  (HttpClient._client (NodeApi._http self))) interval k
    /\ sent_count w' = (sent_count w + S k)%nat
    /\ slept_count w' = (slept_count w + k)%nat.
Proof.
  intros Hrun Ho. rewrite wait_for_sync_poll in Hrun.
  destruct (poll_trace_shape _ _ _ _ _ _ _ _ Hrun Ho) as (k & Hk & Htr).
  exists k. split; [exact Hk|]. split; [exact Htr|].
  unfold sent_count, slept_count. rewrite Htr, !List.filter_app, !length_app.
  clear. induction k as [|k [IH1 IH2]]; cbn in *; split; lia.
Qed.

Lemma synced_fetch (self : NodeApi.t) (w : world) (r : Response) :
  node (sent_count w)
    (status_request (HttpClient.base_url (NodeApi._http self))
       (HttpClient._client (NodeApi._http self))) = Reply r ->
  synced r = true ->
  exists status,
    NodeApi.get_status self w
    = (Return status,
       after_send w (status_request (HttpClient.base_url (NodeApi._http self))
                       (HttpClient._client (NodeApi._http self))))
    /\ json_loads (text r) = Some status
    /\ synced_flag status = Return true.
Proof.
  intros Hr Hu. unfold synced in Hu. apply andb_prop in Hu as [Hs Hu].
  destruct (json_loads (text r)) as [status|] eqn:Hj; [|discriminate].
  exists status. split; [|split; [reflexivity|]].
  - rewrite get_status_call. unfold status_request in Hr.
    rewrite (call_reply _ _ _ _ Hr). unfold response_result.
    rewrite (handle_error_success r Hs). cbn. unfold Httpx.json. now rewrite Hj.
  - destruct (synced_flag status) as [[|]| |]; congruence.
Qed.

Lemma counts_after_send (w : world) (rq : request) :
  sent_count (after_send w rq) = S (sent_count w)
  /\ slept_count (after_send w rq) = slept_count w.
Proof.
  unfold sent_count, slept_count, after_send. cbn [trace].
  rewrite !List.filter_app, !length_app. cbn. lia.
Qed.

Lemma counts_after_sleep (w : world) (d : Z) :
  sent_count (after_sleep w d) = sent_count w
  /\ slept_count (after_sleep w d) = S (slept_count w).
Proof.
  unfold sent_count, slept_count, after_sleep. cbn [trace].
  rewrite !List.filter_app, !length_app. cbn. lia.
Qed.

Lemma poll_returns_when_synced (self : NodeApi.t) (interval timeout deadline : Z) (rk : Response) :
  instantaneous ->
  0 <= interval ->
  synced rk = true ->
  forall (k : nat) (w : world) (fuel : nat),
    (k < fuel)%nat ->
    (forall n, (n < k)%nat ->
       exists r, node (sent_count w + n)
                   (status_request (HttpClient.base_url (NodeApi._http self))
                      (HttpClient._client (NodeApi._http self))) = Reply r
                 /\ unsynced r = true) ->
    node (sent_count w + k)
      (status_request (HttpClient.base_url (NodeApi._http self))
         (HttpClient._client (NodeApi._http self))) = Reply rk ->
    (forall j, (j < k)%nat -> clock w + Z.of_nat j * interval < deadline) ->
    exists status w',
      NodeApi.poll fuel self interval timeout deadline w = (Return status, w')
      /\ json_loads (text rk) = Some status
      /\ clock w' = clock w + Z.of_nat k * interval
      /\ sent_count w' = (sent_count w + S k)%nat
      /\ slept_count w' = (slept_count w + k)%nat.
Proof.
  intros Hinst Hi Hsy.
  induction k as [|k IH]; intros w fuel Hfuel Hun Hk Hdl;
    (destruct fuel as [|fuel]; [lia|]).
  - rewrite Nat.add_0_r in Hk.
    destruct (synced_fetch self w rk Hk Hsy) as (status & Hg & Hj & Hflag).
    exists status. eexists. split.
    + rewrite (poll_synced fuel self interval timeout deadline w status
                 ltac:(now rewrite Hg) Hflag). exact Hg.
    + split; [exact Hj|].
      destruct (counts_after_send w (status_request (HttpClient.base_url (NodeApi._http self))
                  (HttpClient._client (NodeApi._http self)))) as [Hs1 Hs2].
      rewrite Hs1, Hs2. unfold after_send. cbn [clock]. rewrite Hinst. cbn. repeat split; lia.
  - destruct (Hun O ltac:(lia)) as (r & Hr & Hu). rewrite Nat.add_0_r in Hr.
    destruct (unsynced_fetch self w r Hr Hu) as (st & Hg & Hflag).
    rewrite (poll_unsynced fuel self interval timeout deadline w st ltac:(now rewrite Hg) Hflag).
    rewrite Hg. cbn [snd]. set (w1 := after_send w _).
    assert (Hc : clock w1 = clock w)
      by (subst w1; unfold after_send; cbn [clock]; rewrite Hinst; cbn; lia).
    destruct (counts_after_send w (status_request (HttpClient.base_url (NodeApi._http self))
                (HttpClient._client (NodeApi._http self)))) as [Hs1 Hs2].
    fold w1 in Hs1, Hs2.
    destruct (counts_after_sleep w1 interval) as [Hp1 Hp2].
    pose proof (Hdl O ltac:(lia)) as Hd0. cbn in Hd0.
    replace (deadline <=? clock w1) with false by (symmetry; apply Z.leb_gt; lia).
    replace (interval <? 0) with false by (symmetry; apply Z.ltb_ge; lia).
    destruct (IH (after_sleep w1 interval) fuel) as (status & w' & Hrun & Hj & Hcl & Hse & Hsl).
    + lia.
    + intros n Hn. rewrite Hp1, Hs1. destruct (Hun (S n) ltac:(lia)) as (r' & Hr' & Hu').
      exists r'. split; [|exact Hu']. rewrite <- Hr'. f_equal. lia.
    + rewrite Hp1, Hs1. rewrite <- Hk. f_equal. lia.
    + intros j Hj. unfold after_sleep. cbn [clock]. pose proof (Hdl (S j) ltac:(lia)). lia.
    + exists status, w'. split; [exact Hrun|]. split; [exact Hj|].
      unfold after_sleep in Hcl. cbn [clock] in Hcl. repeat split; lia.
Qed.

(** X21. The helper does return once the node syncs. Against a node that
    answers at once, reports synced at its [k]-th next status fetch and
    not before, with an interval that is not negative and a timeout that
    [k - 1] intervals do not reach, [wait_for_sync] returns the status of
    that fetch after [k + 1] fetches and [k] sleeps, [k] intervals after
    it was called. *)
Theorem wait_for_sync_returns_when_node_syncs
    (self : NodeApi.t) (interval timeout : Z) (w : world) (k : nat) (rk : Response) (fuel : nat) :
  instantaneous ->
  0 <= interval ->
  (forall n, (n < k)%nat ->
     exists r, node (sent_count w + n)
                 (status_request (HttpClient.base_url (NodeApi._http self))
                    (HttpClient._client (NodeApi._http self))) = Reply r
               /\ unsynced r = true) ->
  node (sent_count w + k)
    (status_request (HttpClient.base_url (NodeApi._http self))
       (HttpClient._client (NodeApi._http self))) = Reply rk ->
  synced rk = true ->
  (forall j, (j < k)%nat -> Z.of_nat j * interval < timeout) ->
  (k < fuel)%nat ->
  exists status w',
    NodeApi.wait_for_sync fuel self interval timeout w = (Return status, w')
    /\ json_loads (text rk) = Some status
    /\ clock w' - clock w = Z.of_nat k * interval
    /\ sent_count w' = (sent_count w + S k)%nat
    /\ slept_count w' = (slept_count w + k)%nat.
Proof.
  intros Hinst Hi Hun Hk Hsy Hdl Hfuel. rewrite wait_for_sync_poll.
  destruct (poll_returns_when_synced self interval timeout (clock w + timeout) rk
              Hinst Hi Hsy k w fuel Hfuel Hun Hk) as (status & w' & Hrun & Hj & Hcl & Hcounts).
  - intros j Hj. pose proof (Hdl j Hj). lia.
  - exists status, w'. split; [exact Hrun|]. split; [exact Hj|]. split; [lia | exact Hcounts].
Qed.

(** ** The two variants of the helper *)

Lemma async_poll_S (fuel : nat) (aself : AsyncNodeApi.t) (interval timeout deadline : Z) (w : world) :
  run_until_complete (AsyncNodeApi.poll (S fuel) aself interval timeout deadline) w
  = match NodeApi.get_status (blocking_of aself) w with
    | (Return status, w1) =>
        match py_get status "synced" JNull with
        | Return s =>
            if py_truthy s then (Return status, w1)
            else if deadline <=? clock w1 then (Raise (TimeoutError timeout), w1)
            else run_until_complete (AsyncNodeApi.poll fuel aself interval timeout deadline)
                   (snd (asyncio_sleep interval w1))
        | Raise e => (Raise e, w1)
        | OutOfFuel => (OutOfFuel, w1)
        end
    | (Raise e, w1) => (Raise e, w1)
    | (OutOfFuel, w1) => (OutOfFuel, w1)
    end.
Proof.
  cbn [AsyncNodeApi.poll].
  rewrite run_abind. unfold bind at 1. rewrite async_get_status_run.
  destruct (NodeApi.get_status (blocking_of aself) w) as [[status|e|] w1]; try reflexivity.
  rewrite run_abind. unfold bind at 1. unfold alift. cbn [run_until_complete]. unfold lift.
  destruct (py_get status "synced" JNull) as [s|e|]; try reflexivity.
  destruct (py_truthy s); [reflexivity|].
  rewrite run_abind. unfold bind at 1. unfold amonotonic, aret. cbn [run_until_complete].
  unfold bind at 1. unfold monotonic, lift.
  destruct (deadline <=? clock w1); [reflexivity|].
  rewrite run_abind. unfold bind at 1. unfold await_sleep, aret. cbn [run_until_complete].
  unfold bind at 1. unfold asyncio_sleep, lift.
  now destruct (interval <=? 0).
Qed.

Lemma asyncio_sleep_world (d : Z) (w : world) :
  0 <= d -> snd (asyncio_sleep d w) = after_sleep w d.
Proof.
  intros Hd. unfold asyncio_sleep, after_sleep.
  destruct (d <=? 0) eqn:Hle; [|reflexivity].
  apply Z.leb_le in Hle. assert (d = 0) as -> by lia. cbn [snd]. now rewrite Z.add_0_r.
Qed.

Lemma async_poll_agrees (aself : AsyncNodeApi.t) (interval timeout deadline : Z) :
  0 <= interval ->
  forall (fuel : nat) (w : world),
    run_until_complete (AsyncNodeApi.poll fuel aself interval timeout deadline) w
    = NodeApi.poll fuel (blocking_of aself) interval timeout deadline w.
Proof.
  intros Hi. induction fuel as [|fuel IH]; intros w; [reflexivity|].
  rewrite async_poll_S, poll_S.
  destruct (NodeApi.get_status (blocking_of aself) w) as [[status|e|] w1]; try reflexivity.
  destruct (py_get status "synced" JNull) as [s|e|]; try reflexivity.
  destruct (py_truthy s); [reflexivity|].
  destruct (deadline <=? clock w1); [reflexivity|].
  replace (interval <? 0) with false by (symmetry; apply Z.ltb_ge; lia).
  rewrite (asyncio_sleep_world interval w1 Hi). apply IH.
Qed.

(** X22. For an interval that is not negative, the asynchronous
    [wait_for_sync], run by the event loop, does what the blocking one
    does with the same client configuration: the same fetches and sleeps,
    the same clock, the same status returned or exception raised. *)
Theorem async_wait_for_sync_agrees_with_sync
    (aself : AsyncNodeApi.t) (interval timeout : Z) (fuel : nat) (w : world) :
  0 <= interval ->
  run_until_complete (AsyncNodeApi.wait_for_sync fuel aself interval timeout) w
  = NodeApi.wait_for_sync fuel (blocking_of aself) interval timeout w.
Proof.
  intros Hi. unfold AsyncNodeApi.wait_for_sync.
  rewrite run_abind. unfold bind at 1. unfold amonotonic, aret. cbn [run_until_complete].
  unfold bind at 1. unfold monotonic, lift.
  rewrite (async_poll_agrees aself interval timeout (clock w + timeout) Hi). reflexivity.
Qed.

Lemma async_poll_never_ValueError (aself : AsyncNodeApi.t) (interval timeout deadline : Z) :
  forall (fuel : nat) (w : world),
    fst (run_until_complete (AsyncNodeApi.poll fuel aself interval timeout deadline) w)
    <> Raise ValueError.
Proof.
  induction fuel as [|fuel IH]; intros w; [discriminate|].
  rewrite async_poll_S.
  pose proof (transport_outcome_of_call (NodeApi._http (blocking_of aself))
                (Get "/api/node/status" None) w) as Ht.
  rewrite <- get_status_call in Ht.
  destruct (NodeApi.get_status (blocking_of aself) w) as [[status|e|] w1]; cbn [fst] in *;
    [|intros Heq; inversion Heq; subst; discriminate|discriminate].
  destruct (py_get status "synced" JNull) as [s|e|] eqn:Hg;
    [|destruct status; cbn in Hg; cbn [fst]; congruence|discriminate].
  destruct (py_truthy s); [discriminate|].
  destruct (deadline <=? clock w1); [discriminate|]. apply IH.
Qed.

(** X23. With a negative interval the two variants part. The blocking
    helper raises [ValueError] from its sleep, right after a first fetch
    that does not report synced and comes before the deadline; the
    asynchronous helper never raises [ValueError]. *)
Theorem negative_interval_separates_the_variants
    (self : NodeApi.t) (aself : AsyncNodeApi.t) (interval timeout : Z)
    (w : world) (status : json) (fuel : nat) :
  interval < 0 ->
  fst (NodeApi.get_status self w) = Return status ->
  synced_flag status = Return false ->
  clock (snd (NodeApi.get_status self w)) < clock w + timeout ->
  NodeApi.wait_for_sync (S fuel) self interval timeout w
  = (Raise ValueError, snd (NodeApi.get_status self w))
  /\ forall (fuel' : nat) (w0 : world),
       fst (run_until_complete (AsyncNodeApi.wait_for_sync fuel' aself interval timeout) w0)
       <> Raise ValueError.
Proof.
  intros Hi Hs Hf Hc. split.
  - rewrite wait_for_sync_poll.
    rewrite (poll_unsynced fuel self interval timeout (clock w + timeout) w status Hs Hf).
    cbn zeta.
    replace (clock w + timeout <=? clock (snd (NodeApi.get_status self w))) with false
      by (symmetry; apply Z.leb_gt; lia).
    replace (interval <? 0) with true by (symmetry; apply Z.ltb_lt; lia).
    reflexivity.
  - intros fuel' w0. unfold AsyncNodeApi.wait_for_sync.
    rewrite run_abind. unfold bind at 1. unfold amonotonic, aret. cbn [run_until_complete].
    unfold bind at 1. unfold monotonic, lift. apply async_poll_never_ValueError.
Qed.

End SyncWaitMore.

(** * The further properties at concrete inputs *)

Lemma resolve_request_witness :
  @IdentityApi.resolve Demo.created Demo.identity_api "did:claw:z6Mk" (Some ""%string)
  = @IdentityApi.get Demo.created Demo.identity_api "did:claw:z6Mk".
Proof.
  exact (proj1 (@resolve_request Demo.created Demo.identity_api "did:claw:z6Mk"
                  (Some ""%string) Demo.w0) eq_refl).
Defined.

Lemma client_headers_witness :
  req_headers (call_request
                 (HttpClient.base_url
                    (HttpClient.__init__ DEFAULT_BASE_URL DEFAULT_TIMEOUT (Some "secret"%string) None))
                 (HttpClient._client
                    (HttpClient.__init__ DEFAULT_BASE_URL DEFAULT_TIMEOUT (Some "secret"%string) None))
                 (Get "/api/secure" None))
    !! "Authorization"%string
  = Some "Bearer secret"%string.
Proof.
  refine (proj1 (proj2 (@client_headers DEFAULT_BASE_URL DEFAULT_TIMEOUT (Some "secret"%string)
                          None (Get "/api/secure" None))) _).
  vm_compute. reflexivity.
Defined.

Lemma wait_for_sync_propagates_fetch_failure_witness :
  @NodeApi.wait_for_sync Demo.not_found 1 Demo.node_api 2 5 Demo.w0
  = @NodeApi.get_status Demo.not_found Demo.node_api Demo.w0.
Proof.
  refine (proj1 (@wait_for_sync_propagates_fetch_failure Demo.not_found Demo.node_api 2 5 Demo.w0
                   (ClawTokenError (JStr "Resource not found") 404 (JStr "NOT_FOUND") JNull)
                   0%nat _)).
  vm_compute. reflexivity.
Defined.

Lemma wait_for_sync_rejects_non_dict_status_witness :
  @NodeApi.wait_for_sync Demo.list_status 1 Demo.node_api 2 5 Demo.w0
  = (Raise AttributeError, snd (@NodeApi.get_status Demo.list_status Demo.node_api Demo.w0)).
Proof.
  refine (@wait_for_sync_rejects_non_dict_status Demo.list_status Demo.node_api 2 5 Demo.w0
            (JArr [JInt 1; JInt 2]) 0%nat _ _);
    vm_compute; reflexivity.
Defined.

Lemma wait_for_sync_returns_only_synced_witness :
  synced_flag (JObj [("synced", JBool true)]%string) = Return true.
Proof.
  refine (@wait_for_sync_returns_only_synced Demo.syncing_node Demo.node_api 2 60 Demo.w0
            (snd (@NodeApi.wait_for_sync Demo.syncing_node 10 Demo.node_api 2 60 Demo.w0))
            (JObj [("synced", JBool true)]%string) 10%nat _).
  vm_compute. reflexivity.
Defined.

Lemma timeout_failure_only_after_timeout_witness :
  5 = 5
  /\ 5 <= clock (snd (@NodeApi.wait_for_sync Demo.unsynced_node 10 Demo.node_api 2 5 Demo.w0))
          - clock Demo.w0.
Proof.
  refine (@timeout_failure_only_after_timeout Demo.unsynced_node Demo.node_api 2 5 Demo.w0
            (snd (@NodeApi.wait_for_sync Demo.unsynced_node 10 Demo.node_api 2 5 Demo.w0))
            5 10%nat _).
  vm_compute. reflexivity.
Defined.

Lemma wait_for_sync_trace_shape_witness :
  exists k : nat,
    (k < 10)%nat
    /\ trace (snd (@NodeApi.wait_for_sync Demo.syncing_node 10 Demo.node_api 2 60 Demo.w0))
       = trace Demo.w0
         ++ poll_events (status_request (HttpClient.base_url (NodeApi._http Demo.node_api))
                           (HttpClient._client (NodeApi._http Demo.node_api))) 2 k
    /\ sent_count (snd (@NodeApi.wait_for_sync Demo.syncing_node 10 Demo.node_api 2 60 Demo.w0))
       = (sent_count Demo.w0 + S k)%nat
    /\ slept_count (snd (@NodeApi.wait_for_sync Demo.syncing_node 10 Demo.node_api 2 60 Demo.w0))
       = (slept_count Demo.w0 + k)%nat.
Proof.
  refine (@wait_for_sync_trace_shape Demo.syncing_node Demo.node_api 2 60 Demo.w0
            (snd (@NodeApi.wait_for_sync Demo.syncing_node 10 Demo.node_api 2 60 Demo.w0))
            (fst (@NodeApi.wait_for_sync Demo.syncing_node 10 Demo.node_api 2 60 Demo.w0))
            10%nat _ _).
  - apply surjective_pairing.
  - vm_compute. discriminate.
Defined.

Lemma wait_for_sync_returns_when_node_syncs_witness :
  exists status w',
    @NodeApi.wait_for_sync Demo.syncing_at_once 5 Demo.node_api 2 60 Demo.w0 = (Return status, w')
    /\ @json_loads Demo.syncing_at_once (Json.text "{'synced': true}") = Some status
    /\ clock w' - clock Demo.w0 = Z.of_nat 2 * 2
    /\ sent_count w' = (sent_count Demo.w0 + 3)%nat
    /\ slept_count w' = (slept_count Demo.w0 + 2)%nat.
Proof.
  refine (@wait_for_sync_returns_when_node_syncs Demo.syncing_at_once Demo.node_api 2 60 Demo.w0
            2%nat {| status_code := 200; text := Json.text "{'synced': true}" |} 5%nat
            _ _ _ _ _ _ _).
  - intros n. reflexivity.
  - lia.
  - intros n Hn. destruct n as [|[|n]]; [| |lia];
      (eexists; split; [reflexivity | vm_compute; reflexivity]).
  - reflexivity.
  - vm_compute. reflexivity.
  - intros j Hj. lia.
  - lia.
Defined.

Lemma async_wait_for_sync_agrees_with_sync_witness :
  @run_until_complete Demo.unsynced_node json
    (@AsyncNodeApi.wait_for_sync Demo.unsynced_node 3 Demo.anode_api 0 5) Demo.w0
  = @NodeApi.wait_for_sync Demo.unsynced_node 3 (blocking_of Demo.anode_api) 0 5 Demo.w0.
Proof.
  refine (@async_wait_for_sync_agrees_with_sync Demo.unsynced_node Demo.anode_api 0 5 3%nat
            Demo.w0 _).
  lia.
Defined.

Lemma negative_interval_separates_the_variants_witness :
  @NodeApi.wait_for_sync Demo.unsynced_node 1 Demo.node_api (-1) 5 Demo.w0
  = (Raise ValueError, snd (@NodeApi.get_status Demo.unsynced_node Demo.node_api Demo.w0)).
Proof.
  refine (proj1 (@negative_interval_separates_the_variants Demo.unsynced_node
                   Demo.node_api Demo.anode_api (-1) 5 Demo.w0 _ 0%nat _ _ _ _));
    [lia | vm_compute; reflexivity | vm_compute; reflexivity | vm_compute; reflexivity].
Defined.
